(** * CwaWeather-backend: a shallow embedding of [server.js]

    The server exposes one Express handler per city.  Each handler looks the
    city key up in [CITY_MAP], calls [getWeatherData] (one GET to the CWA open
    data API followed by a normalisation loop), and answers with either a
    success envelope or an error envelope built in the [catch] block.

    The embedding keeps the shape of the source:
    - JavaScript exceptions are a [Completion] (normal return or throw);
    - the observable effects of a handler (upstream requests issued, lines
      written with [console.error], responses sent through [res]) are traces
      kept in a [World] that is threaded through a small state-and-exception
      monad [M];
    - the process configuration ([CWA_API_KEY]) and the transport client
      ([axios.get]) are the parameters of the section that holds the code. *)

From Stdlib Require Import ZArith.
From stdpp Require Import base option list gmap strings.

Local Open Scope string_scope.
Local Open Scope nat_scope.
Local Open Scope list_scope.

(** ** JavaScript values *)

(** The values a parsed JSON body can hold, plus [undefined], which is what
    reading an absent property yields.  Numbers are restricted to the integers;
    the only operation the server applies to a number is the truthiness test of
    [||], for which zero is the falsy integer. *)
#[warnings="-register-all"] Inductive jsval : Type :=
  | JUndefined
  | JNull
  | JBool (b : bool)
  | JNum (n : Z)
  | JStr (s : string)
  | JArr (items : list jsval)
  | JObj (props : list (string * jsval)).

(** [ToBoolean]: the falsy values are [undefined], [null], [false], [0] and
    the empty string. *)
Definition truthy (v : jsval) : bool :=
  match v with
  | JUndefined | JNull => false
  | JBool b => b
  | JNum n => negb (n =? 0)%Z
  | JStr s => negb (String.eqb s "")
  | JArr _ | JObj _ => true
  end.

(** [a || b] on values. *)
Definition js_or (a b : jsval) : jsval := if truthy a then a else b.

(** [a || b] where both operands are strings. *)
Definition str_or (a b : string) : string := if String.eqb a "" then b else a.

(** Own properties of an object literal, first binding found. *)
Fixpoint own_property (k : string) (props : list (string * jsval)) : jsval :=
  match props with
  | [] => JUndefined
  | (k', v) :: rest => if String.eqb k k' then v else own_property k rest
  end.

(** ** Errors and completions *)

Record AxiosResponse (D : Type) : Type := mkResponse {
  status : Z;
  data : D;
}.
Arguments mkResponse {D} _%_Z _.
Arguments status {D} _.
Arguments data {D} _.

(** An [Error] object as the [catch] block sees it: [error.message] and
    [error.response] (set by axios when the upstream answered with a status
    outside 2xx, [undefined] on every other error). *)
Record JsError : Type := mkError {
  err_name : string;
  err_message : string;
  err_response : option (AxiosResponse jsval);
}.

Definition Error (message : string) : JsError := mkError "Error" message None.
Definition TypeError (message : string) : JsError := mkError "TypeError" message None.

Inductive Completion (A : Type) : Type :=
  | Return (a : A)
  | Throw (e : JsError).
Arguments Return {A} _.
Arguments Throw {A} _.

Global Instance Completion_ret : MRet Completion := fun A a => Return a.
Global Instance Completion_bind : MBind Completion := fun A B f m =>
  match m with
  | Return a => f a
  | Throw e => Throw e
  end.

(** [v.message]: reading a property of [undefined] or [null] throws; on a
    primitive or an array the property [message] does not exist. *)
Definition read_message (v : jsval) : Completion jsval :=
  match v with
  | JUndefined =>
      Throw (TypeError "Cannot read properties of undefined (reading 'message')")
  | JNull =>
      Throw (TypeError "Cannot read properties of null (reading 'message')")
  | JObj props => Return (own_property "message" props)
  | JBool _ | JNum _ | JStr _ | JArr _ => Return JUndefined
  end.

(** ** The upstream payload (dataset F-C0032-001) *)

Module Upstream.

Record ElementValue : Type := mkValue {
  parameterName : string;
}.

Record TimeEntry : Type := mkTime {
  startTime : string;
  endTime : string;
  parameter : ElementValue;
}.

Record WeatherElement : Type := mkElement {
  elementName : string;
  time : list TimeEntry;
}.

Record Location : Type := mkLocation {
  locationName : string;
  weatherElement : list WeatherElement;
}.

Record Records : Type := mkRecords {
  datasetDescription : string;
  location : list Location;
}.

Record Body : Type := mkBody {
  records : Records;
}.

End Upstream.

(** ** The normalised forecast *)

Record Forecast : Type := mkForecast {
  startTime : string;
  endTime : string;
  weather : string;
  rain : string;
  minTemp : string;
  maxTemp : string;
  comfort : string;
  windSpeed : string;
}.

Record WeatherData : Type := mkWeatherData {
  city : string;
  updateTime : string;
  forecasts : list Forecast;
}.

(** ** The city table *)

Definition CITY_MAP : gmap string string :=
  list_to_map
    [ ("taipei", "臺北市");
      ("newtaipei", "新北市");
      ("taoyuan", "桃園市");
      ("taichung", "臺中市");
      ("tainan", "臺南市");
      ("kaohsiung", "高雄市") ].

(** The six keys bound by the routes of the server. *)
Definition city_keys : list string :=
  [ "taipei"; "newtaipei"; "taoyuan"; "taichung"; "tainan"; "kaohsiung" ].

(** [CITY_MAP] is an object literal, so a key that is not an own property is
    looked up on [Object.prototype]. *)
Definition Object_prototype : list string :=
  [ "constructor"; "__defineGetter__"; "__defineSetter__"; "hasOwnProperty";
    "__lookupGetter__"; "__lookupSetter__"; "isPrototypeOf";
    "propertyIsEnumerable"; "toString"; "valueOf"; "__proto__";
    "toLocaleString" ].

(** What [CITY_MAP[cityKey]] evaluates to. *)
Inductive CityName : Type :=
  | Locale (name : string)
  | Undefined
  | Inherited (key : string).

Definition CITY_MAP_get (cityKey : string) : CityName :=
  match CITY_MAP !! cityKey with
  | Some name => Locale name
  | None =>
      if bool_decide (cityKey ∈ Object_prototype) then Inherited cityKey
      else Undefined
  end.

(** The string a template literal substitutes for [${cityName}]. *)
Definition ToString (cityName : CityName) : string :=
  match cityName with
  | Locale name => name
  | Undefined => "undefined"
  | Inherited key =>
      if String.eqb key "__proto__" then "[object Object]"
      else "function "
           +:+ (if String.eqb key "constructor" then "Object" else key)
           +:+ "() { [native code] }"
  end.

(** The property read [CITY_MAP[cityKey]] as a statement of the [try] block:
    it completes normally whatever the key. *)
Definition resolve (cityKey : string) : Completion CityName :=
  Return (CITY_MAP_get cityKey).

(** ** Effects *)

Record Request : Type := mkRequest {
  url : string;
  Authorization : string;
  locationName : CityName;
}.

Inductive AxiosResult : Type :=
  | Resolved (response : AxiosResponse Upstream.Body)
  | Rejected (error : JsError).

(** The two envelopes the handlers send. *)
Inductive Envelope : Type :=
  | SuccessEnvelope (success : bool) (data : WeatherData)
  | ErrorEnvelope (error : string) (message : jsval) (details : option jsval).

Record HttpResponse : Type := mkHttp {
  statusCode : Z;
  body : Envelope;
}.

Record World : Type := mkWorld {
  requests : list Request;
  console : list (string * string);
  sent : list HttpResponse;
}.

Definition M (A : Type) : Type := World → Completion A * World.

Global Instance M_ret : MRet M := fun A a w => (Return a, w).
Global Instance M_bind : MBind M := fun A B f m w =>
  match m w with
  | (Return a, w') => f a w'
  | (Throw e, w') => (Throw e, w')
  end.

Definition throw {A : Type} (e : JsError) : M A := fun w => (Throw e, w).

Definition lift {A : Type} (c : Completion A) : M A := fun w => (c, w).

Definition try_catch {A : Type} (body : M A) (handler : JsError → M A) : M A :=
  fun w =>
    match body w with
    | (Return a, w') => (Return a, w')
    | (Throw e, w') => handler e w'
    end.

Definition console_error (label message : string) : M unit := fun w =>
  (Return (), mkWorld (requests w) (console w ++ [(label, message)]) (sent w)).

(** [res.status(code).json(body)]; [res.json(body)] is the case [code = 200]. *)
Definition res_json (code : Z) (b : Envelope) : M unit := fun w =>
  (Return (), mkWorld (requests w) (console w) (sent w ++ [mkHttp code b])).

(** The world once [request] has gone out to the upstream. *)
Definition issued (request : Request) (w : World) : World :=
  mkWorld (requests w ++ [request]) (console w) (sent w).

(** The world once a line has been logged and [response] has been sent. *)
Definition answered (line : string * string) (response : HttpResponse) (w : World)
    : World :=
  mkWorld (requests w) (console w ++ [line]) (sent w ++ [response]).

Definition CWA_API_BASE_URL : string := "https://opendata.cwa.gov.tw/api".

(** ** The normaliser *)

(** The [switch] on [element.elementName]. *)
Definition assign (elementName : string) (value : Upstream.ElementValue)
    (forecast : Forecast) : Forecast :=
  let v := Upstream.parameterName value in
  let '(mkForecast st en wx po mn mx ci ws) := forecast in
  if String.eqb elementName "Wx" then mkForecast st en v po mn mx ci ws
  else if String.eqb elementName "PoP" then mkForecast st en wx (v +:+ "%") mn mx ci ws
  else if String.eqb elementName "MinT" then mkForecast st en wx po (v +:+ "°C") mx ci ws
  else if String.eqb elementName "MaxT" then mkForecast st en wx po mn (v +:+ "°C") ci ws
  else if String.eqb elementName "CI" then mkForecast st en wx po mn mx v ws
  else if String.eqb elementName "WS" then mkForecast st en wx po mn mx ci v
  else forecast.

(** [weatherElements.forEach(...)] at interval [i]: [element.time[i].parameter]
    is read for every element, before the [switch]. *)
Fixpoint forEach (i : nat) (weatherElements : list Upstream.WeatherElement)
    (forecast : Forecast) : Completion Forecast :=
  match weatherElements with
  | [] => Return forecast
  | element :: rest =>
      match Upstream.time element !! i with
      | None =>
          Throw (TypeError "Cannot read properties of undefined (reading 'parameter')")
      | Some entry =>
          forEach i rest
            (assign (Upstream.elementName element) (Upstream.parameter entry) forecast)
      end
  end.

(** One iteration of the [for] loop: the forecast pushed for interval [i]. *)
Definition forecast_at (first : Upstream.WeatherElement)
    (weatherElements : list Upstream.WeatherElement) (i : nat) : Completion Forecast :=
  match Upstream.time first !! i with
  | None =>
      Throw (TypeError "Cannot read properties of undefined (reading 'startTime')")
  | Some entry =>
      forEach i weatherElements
        (mkForecast (Upstream.startTime entry) (Upstream.endTime entry)
           "" "" "" "" "" "")
  end.

(** [for (let i = 0; i < timeCount; i++) { ...; forecasts.push(forecast) }],
    given the indices still to visit. *)
Fixpoint for_loop (body : nat → Completion Forecast) (indices : list nat)
    (forecasts : list Forecast) : Completion (list Forecast) :=
  match indices with
  | [] => Return forecasts
  | i :: rest =>
      match body i with
      | Return forecast => for_loop body rest (forecasts ++ [forecast])
      | Throw e => Throw e
      end
  end.

(** Lines 50-107: everything [getWeatherData] does once the upstream has
    answered. *)
Definition normalize (cityName : CityName) (response : AxiosResponse Upstream.Body)
    : Completion WeatherData :=
  match Upstream.location (Upstream.records (data response)) !! 0%nat with
  | None => Throw (Error ("無法取得" +:+ ToString cityName +:+ "天氣資料"))
  | Some locationData =>
      let weatherElements := Upstream.weatherElement locationData in
      match weatherElements !! 0%nat with
      | None =>
          Throw (TypeError "Cannot read properties of undefined (reading 'time')")
      | Some first =>
          let timeCount := length (Upstream.time first) in
          forecasts ← for_loop (forecast_at first weatherElements) (seq 0 timeCount) [];
          Return
            (mkWeatherData (Upstream.locationName locationData)
               (Upstream.datasetDescription (Upstream.records (data response)))
               forecasts)
      end
  end.

(** The GET issued by [getWeatherData]: the endpoint and its two parameters. *)
Definition forecast_request (key : string) (cityName : CityName) : Request :=
  mkRequest (CWA_API_BASE_URL +:+ "/v1/rest/datastore/F-C0032-001") key cityName.

(** [!CWA_API_KEY] is false: the variable is set and is not the empty string. *)
Definition configured (CWA_API_KEY : option string) : bool :=
  match CWA_API_KEY with
  | None | Some "" => false
  | Some _ => true
  end.

Section Server.

(** [process.env.CWA_API_KEY]: [None] when the variable is not set. *)
Variable CWA_API_KEY : option string.

(** The transport client: what [await axios.get(url, {params})] completes
    with. *)
Variable axios : Request → AxiosResult.

Definition axios_get (request : Request) : M (AxiosResponse Upstream.Body) :=
  fun w =>
    match axios request with
    | Resolved response => (Return response, issued request w)
    | Rejected error => (Throw error, issued request w)
    end.

Definition getWeatherData (cityName : CityName) : M WeatherData :=
  match CWA_API_KEY with
  | None | Some "" => throw (Error "請在 .env 檔案中設定 CWA_API_KEY")
  | Some key =>
      response ← axios_get (forecast_request key cityName);
      lift (normalize cityName response)
  end.

(** The [catch (error)] block of the handler, lines 123-140. *)
Definition on_error (cityKey : string) (error : JsError) : M unit :=
  console_error ("取得" +:+ ToString (CITY_MAP_get cityKey) +:+ "天氣資料失敗:")
    (err_message error);;
  match err_response error with
  | Some response =>
      message ← lift (read_message (data response));
      res_json (status response)
        (ErrorEnvelope "CWA API 錯誤"
           (js_or message (JStr "無法取得天氣資料"))
           (Some (data response)))
  | None =>
      res_json 500
        (ErrorEnvelope "伺服器錯誤"
           (JStr (str_or (err_message error) "無法取得天氣資料,請稍後再試"))
           None)
  end.

Definition getCityWeather (cityKey : string) : M unit :=
  try_catch
    (cityName ← lift (resolve cityKey);
     weatherData ← getWeatherData cityName;
     res_json 200 (SuccessEnvelope true weatherData))
    (on_error cityKey).

End Server.

Definition world0 : World := mkWorld [] [] [].

(** ** Sample payloads *)

Module Sample.
Import Upstream.

Definition entry (s e v : string) : TimeEntry := mkTime s e (mkValue v).

Definition t0 : string := "2025-01-01 06:00:00".
Definition t1 : string := "2025-01-01 18:00:00".
Definition t2 : string := "2025-01-02 06:00:00".

Definition series (v0 v1 : string) : list TimeEntry :=
  [entry t0 t1 v0; entry t1 t2 v1].

Definition elements : list WeatherElement :=
  [ mkElement "Wx" (series "晴時多雲" "多雲");
    mkElement "PoP" (series "10" "20");
    mkElement "MinT" (series "15" "14");
    mkElement "CI" (series "舒適" "稍有寒意");
    mkElement "MaxT" (series "22" "19");
    mkElement "WS" (series "3" "4") ].

Definition response_of (name : string) (es : list WeatherElement)
    : AxiosResponse Body :=
  mkResponse 200
    (mkBody (mkRecords "三十六小時天氣預報" [mkLocation name es])).

Definition taipei : AxiosResponse Body := response_of "臺北市" elements.

Definition empty : AxiosResponse Body :=
  mkResponse 200 (mkBody (mkRecords "三十六小時天氣預報" [])).

(** Axios errors for an upstream answer with status 503. *)
Definition rejection (payload : jsval) : JsError :=
  mkError "AxiosError" "Request failed with status code 503"
    (Some (mkResponse 503 payload)).



Definition null_body : JsError := rejection JNull.

(** The record of another city than the one asked for. *)
Definition newtaipei : AxiosResponse Body := response_of "新北市" elements.

(** The six elements followed by one with an unknown code and a single
    interval. *)
Definition short_extra : AxiosResponse Body :=
  response_of "臺北市" (elements ++ [mkElement "UVI" [entry t0 t1 "5"]]).

(** The six elements, aligned, the weather text of the first interval
    empty. *)
Definition blank_weather : AxiosResponse Body :=
  response_of "臺北市"
    [ mkElement "Wx" (series "" "多雲");
      mkElement "PoP" (series "10" "20");
      mkElement "MinT" (series "15" "14");
      mkElement "MaxT" (series "22" "19");
      mkElement "CI" (series "舒適" "稍有寒意");
      mkElement "WS" (series "3" "4") ].

(** Two elements with the same code and the same interval boundaries, in
    both orders. *)
Definition sunny_then_rainy : list WeatherElement :=
  [ mkElement "Wx" (series "晴" "晴"); mkElement "Wx" (series "雨" "雨") ].

Definition rainy_then_sunny : list WeatherElement :=
  [ mkElement "Wx" (series "雨" "雨"); mkElement "Wx" (series "晴" "晴") ].

Definition twice : AxiosResponse Body := response_of "臺北市" sunny_then_rainy.

(** The six elements in another order. *)
Definition shuffled : list WeatherElement := reverse elements.

(** The precipitation series one interval short, and one interval long. *)
Definition short_pop : AxiosResponse Body :=
  response_of "臺北市"
    [ mkElement "Wx" (series "晴時多雲" "多雲");
      mkElement "PoP" [entry t0 t1 "10"] ].

Definition long_pop : AxiosResponse Body :=
  response_of "臺北市"
    [ mkElement "Wx" (series "晴時多雲" "多雲");
      mkElement "PoP" (series "10" "20" ++ [entry t2 t2 "30"]) ].

(** The six elements followed by one with an unknown code and three
    intervals. *)
Definition long_extra : AxiosResponse Body :=
  response_of "臺北市"
    (elements ++ [mkElement "UVI" (series "5" "6" ++ [entry t2 t2 "7"])]).

(** A record without weather elements. *)
Definition bare : AxiosResponse Body := response_of "臺北市" [].

(** Axios errors without a response: the upstream could not be reached. *)
Definition refused : JsError :=
  mkError "AxiosError" "connect ECONNREFUSED 127.0.0.1:443" None.

Definition silent : JsError := mkError "Error" "" None.

(** A 503 answer whose [message] is the empty string. *)
Definition blank_message : JsError := rejection (JObj [("message", JStr "")]).

(** The sample elements with the boundaries of every element but the first
    replaced. *)
Definition shifted : list WeatherElement :=
  [ mkElement "Wx" (series "晴時多雲" "多雲");
    mkElement "PoP" [entry t2 t2 "10"; entry t0 t0 "20"];
    mkElement "MinT" [entry t1 t0 "15"; entry t2 t1 "14"];
    mkElement "CI" [entry t2 t1 "舒適"; entry t2 t0 "稍有寒意"];
    mkElement "MaxT" [entry t0 t2 "22"; entry t1 t1 "19"];
    mkElement "WS" [entry t1 t1 "3"; entry t0 t1 "4"] ].

End Sample.

(** ** Vocabulary of the properties *)

(** The six element codes the [switch] dispatches on. *)
Definition element_codes : list string := ["Wx"; "PoP"; "MinT"; "MaxT"; "CI"; "WS"].

(** The forecast field the code [code] is dispatched to. *)
Definition field (code : string) (forecast : Forecast) : string :=
  if String.eqb code "Wx" then weather forecast
  else if String.eqb code "PoP" then rain forecast
  else if String.eqb code "MinT" then minTemp forecast
  else if String.eqb code "MaxT" then maxTemp forecast
  else if String.eqb code "CI" then comfort forecast
  else if String.eqb code "WS" then windSpeed forecast
  else "".

(** The text stored in that field for the upstream value [value]. *)
Definition rendered (code : string) (value : Upstream.ElementValue) : string :=
  if String.eqb code "PoP" then Upstream.parameterName value +:+ "%"
  else if String.eqb code "MinT" then Upstream.parameterName value +:+ "°C"
  else if String.eqb code "MaxT" then Upstream.parameterName value +:+ "°C"
  else Upstream.parameterName value.

(** The start and end of every interval of an element. *)
Definition boundaries (element : Upstream.WeatherElement) : list (string * string) :=
  (λ entry, (Upstream.startTime entry, Upstream.endTime entry))
    <$> Upstream.time element.

(** The upstream alignment invariant: all elements have the same interval
    count and, at each index, the same start and end. *)
Definition aligned (es : list Upstream.WeatherElement) : Prop :=
  ∀ e1 e2, e1 ∈ es → e2 ∈ es → boundaries e1 = boundaries e2.

(** No two elements carry the same recognised code. *)
Definition distinct_codes (es : list Upstream.WeatherElement) : Prop :=
  NoDup (filter (λ code, code ∈ element_codes) (Upstream.elementName <$> es)).

(** An element cut down to its first [n] intervals. *)
Definition truncate (n : nat) (element : Upstream.WeatherElement)
    : Upstream.WeatherElement :=
  Upstream.mkElement (Upstream.elementName element) (take n (Upstream.time element)).

(** The codes whose value is copied without a suffix. *)
Definition text_codes : list string := ["Wx"; "CI"; "WS"].

(** The weather elements of the location record the normaliser reads. *)
Definition elements_of (response : AxiosResponse Upstream.Body)
    : list Upstream.WeatherElement :=
  match Upstream.location (Upstream.records (data response)) !! 0%nat with
  | Some locationData => Upstream.weatherElement locationData
  | None => []
  end.

(** The time series of the first weather element, and the interval count the
    loop runs to. *)
Definition first_times (response : AxiosResponse Upstream.Body)
    : list Upstream.TimeEntry :=
  match elements_of response !! 0%nat with
  | Some first => Upstream.time first
  | None => []
  end.

Definition timeCount_of (response : AxiosResponse Upstream.Body) : nat :=
  length (first_times response).

(** Every recognised code has, at every index below the count, an element that
    carries it and has an entry there. *)
Definition present_at_every_index (response : AxiosResponse Upstream.Body) : Prop :=
  Forall
    (λ code,
       Forall
         (λ i,
            Exists
              (λ element,
                 Upstream.elementName element = code
                 ∧ i < length (Upstream.time element))
              (elements_of response))
         (seq 0 (timeCount_of response)))
    element_codes.

(** All six semantic fields are non-empty. *)
Definition populated (forecast : Forecast) : Prop :=
  weather forecast ≠ "" ∧ rain forecast ≠ "" ∧ minTemp forecast ≠ ""
  ∧ maxTemp forecast ≠ "" ∧ comfort forecast ≠ "" ∧ windSpeed forecast ≠ "".

(** One entry per interval of the first element, in index order, each
    populated. *)
Definition complete (response : AxiosResponse Upstream.Body)
    (weatherData : WeatherData) : Prop :=
  length (forecasts weatherData) = timeCount_of response
  ∧ ∀ i entry,
      first_times response !! i = Some entry →
      ∃ forecast,
        forecasts weatherData !! i = Some forecast
        ∧ startTime forecast = Upstream.startTime entry
        ∧ endTime forecast = Upstream.endTime entry
        ∧ populated forecast.

(** The same response with the weather elements of that record replaced. *)
Definition with_elements (es : list Upstream.WeatherElement)
    (response : AxiosResponse Upstream.Body) : AxiosResponse Upstream.Body :=
  let r := Upstream.records (data response) in
  mkResponse (status response)
    (Upstream.mkBody
       (Upstream.mkRecords (Upstream.datasetDescription r)
          match Upstream.location r with
          | [] => []
          | locationData :: others =>
              Upstream.mkLocation (Upstream.locationName locationData) es :: others
          end)).

(** The line [console.error] writes for [cityKey] and [error]. *)
Definition log_line (cityKey : string) (error : JsError) : string * string :=
  ("取得" +:+ ToString (CITY_MAP_get cityKey) +:+ "天氣資料失敗:", err_message error).

(** The envelope of the last branch of the [catch] block. *)
Definition server_error (message : string) : HttpResponse :=
  mkHttp 500 (ErrorEnvelope "伺服器錯誤" (JStr message) None).

Definition missing_key_message : string := "請在 .env 檔案中設定 CWA_API_KEY".

Definition not_found_message (cityName : CityName) : string :=
  "無法取得" +:+ ToString cityName +:+ "天氣資料".

Definition undefined_read (property : string) : string :=
  "Cannot read properties of undefined (reading '" +:+ property +:+ "')".

(** The error of [element.time[i].parameter] when the element has no entry
    [i]. *)
Definition missing_entry : JsError :=
  TypeError "Cannot read properties of undefined (reading 'parameter')".

(** ** The route table and the index document *)

(** Lines 173-178: the pair [(path, cityKey)] stands for
    [app.get(path, getCityWeather(cityKey))]. *)
Definition weather_routes : list (string * string) :=
  [ ("/api/weather/taipei", "taipei");
    ("/api/weather/newtaipei", "newtaipei");
    ("/api/weather/taoyuan", "taoyuan");
    ("/api/weather/taichung", "taichung");
    ("/api/weather/tainan", "tainan");
    ("/api/weather/kaohsiung", "kaohsiung") ].

(** Lines 145-166: the [endpoints] and [cities] objects of the document served
    at [/], as lists of properties. *)
Definition root_endpoints : list (string * string) :=
  [ ("taipei", "/api/weather/taipei");
    ("newTaipei", "/api/weather/newtaipei");
    ("taoyuan", "/api/weather/taoyuan");
    ("taichung", "/api/weather/taichung");
    ("tainan", "/api/weather/tainan");
    ("kaohsiung", "/api/weather/kaohsiung");
    ("health", "/api/health") ].

Definition root_cities : list (string * string) :=
  [ ("taipei", "臺北市");
    ("newTaipei", "新北市");
    ("taoyuan", "桃園市");
    ("taichung", "臺中市");
    ("tainan", "臺南市");
    ("kaohsiung", "高雄市") ].

(** What the normaliser reads of an element other than the first: its code
    and the [parameter] of each entry. *)
Definition values (element : Upstream.WeatherElement)
    : string * list Upstream.ElementValue :=
  (Upstream.elementName element, Upstream.parameter <$> Upstream.time element).

(** The start and end of a forecast. *)
Definition interval (forecast : Forecast) : string * string :=
  (startTime forecast, endTime forecast).

(** The upstream error body on which [data.message] cannot be read. *)
Definition unreadable (payload : jsval) : Prop :=
  payload = JNull ∨ payload = JUndefined.

(** ** The payload with optional parameters *)

(** The same payload, except that a time entry may come without its
    [parameter] property ([None] is [undefined]).  The loop of lines 64-107
    over it: [element.time[i].parameter] is read for every element and may be
    [undefined]; [value.parameterName] is evaluated only inside a [case], so
    an [undefined] value throws for a recognised code and is passed over for
    any other. *)
Module Loose.

Record TimeEntry : Type := mkTime {
  startTime : string;
  endTime : string;
  parameter : option Upstream.ElementValue;
}.

Record WeatherElement : Type := mkElement {
  elementName : string;
  time : list TimeEntry;
}.

Record Location : Type := mkLocation {
  locationName : string;
  weatherElement : list WeatherElement;
}.

Record Records : Type := mkRecords {
  datasetDescription : string;
  location : list Location;
}.

Record Body : Type := mkBody {
  records : Records;
}.

Fixpoint forEach (i : nat) (weatherElements : list WeatherElement)
    (forecast : Forecast) : Completion Forecast :=
  match weatherElements with
  | [] => Return forecast
  | element :: rest =>
      match time element !! i with
      | None =>
          Throw (TypeError "Cannot read properties of undefined (reading 'parameter')")
      | Some entry =>
          match parameter entry with
          | Some value => forEach i rest (assign (elementName element) value forecast)
          | None =>
              if bool_decide (elementName element ∈ element_codes)
              then
                Throw
                  (TypeError
                     "Cannot read properties of undefined (reading 'parameterName')")
              else forEach i rest forecast
          end
      end
  end.

Definition forecast_at (first : WeatherElement)
    (weatherElements : list WeatherElement) (i : nat) : Completion Forecast :=
  match time first !! i with
  | None =>
      Throw (TypeError "Cannot read properties of undefined (reading 'startTime')")
  | Some entry =>
      forEach i weatherElements
        (mkForecast (startTime entry) (endTime entry) "" "" "" "" "" "")
  end.

Definition normalize (cityName : CityName) (response : AxiosResponse Body)
    : Completion WeatherData :=
  match location (records (data response)) !! 0%nat with
  | None => Throw (Error ("無法取得" +:+ ToString cityName +:+ "天氣資料"))
  | Some locationData =>
      let weatherElements := weatherElement locationData in
      match weatherElements !! 0%nat with
      | None =>
          Throw (TypeError "Cannot read properties of undefined (reading 'time')")
      | Some first =>
          let timeCount := length (time first) in
          forecasts ← for_loop (forecast_at first weatherElements) (seq 0 timeCount) [];
          Return
            (mkWeatherData (locationName locationData)
               (datasetDescription (records (data response)))
               forecasts)
      end
  end.

(** A payload in which every entry has its parameter, as a payload of this
    kind. *)
Definition of_entry (entry : Upstream.TimeEntry) : TimeEntry :=
  mkTime (Upstream.startTime entry) (Upstream.endTime entry)
    (Some (Upstream.parameter entry)).

Definition of_element (element : Upstream.WeatherElement) : WeatherElement :=
  mkElement (Upstream.elementName element) (of_entry <$> Upstream.time element).

Definition of_location (locationData : Upstream.Location) : Location :=
  mkLocation (Upstream.locationName locationData)
    (of_element <$> Upstream.weatherElement locationData).

Definition of_response (response : AxiosResponse Upstream.Body)
    : AxiosResponse Body :=
  mkResponse (status response)
    (mkBody
       (mkRecords (Upstream.datasetDescription (Upstream.records (data response)))
          (of_location <$> Upstream.location (Upstream.records (data response))))).

(** Sample payloads: an element of unknown code without parameters after a
    complete Wx element, and a lone PoP element whose entry has no
    parameter. *)
Definition response_of (es : list WeatherElement) : AxiosResponse Body :=
  mkResponse 200 (mkBody (mkRecords "三十六小時天氣預報" [mkLocation "臺北市" es])).

Definition sparse : AxiosResponse Body :=
  response_of
    [ mkElement "Wx"
        [ mkTime Sample.t0 Sample.t1 (Some (Upstream.mkValue "晴時多雲"));
          mkTime Sample.t1 Sample.t2 (Some (Upstream.mkValue "多雲")) ];
      mkElement "UVI"
        [ mkTime Sample.t0 Sample.t1 None; mkTime Sample.t1 Sample.t2 None ] ].

Definition bare_pop : AxiosResponse Body :=
  response_of [ mkElement "PoP" [ mkTime Sample.t0 Sample.t1 None ] ].

End Loose.

(** Case analysis on the comparisons of [c] with the codes of the [switch]. *)
Ltac case_code c :=
  repeat match goal with
         | |- context [String.eqb c ?b] =>
             destruct (String.eqb_spec c b) as [?|?]; [subst c; cbn|]
         end.

(** Membership in a list that is written out, by position. *)
Ltac find_member :=
  cbn; repeat first [apply list_elem_of_here | apply list_elem_of_further].

(** * Properties *)

(** ** The handler, step by step *)

Section Handler.

Variable CWA_API_KEY : option string.
Variable axios : Request → AxiosResult.

Lemma getWeatherData_unconfigured cityName w :
  configured CWA_API_KEY = false →
  getWeatherData CWA_API_KEY axios cityName w = (Throw (Error missing_key_message), w).
Proof.
  unfold getWeatherData, configured.
  destruct CWA_API_KEY as [[|c k]|]; intros H; try discriminate H; reflexivity.
Qed.

Lemma getWeatherData_configured cityName w :
  configured CWA_API_KEY = true →
  ∃ key, CWA_API_KEY = Some key ∧
    getWeatherData CWA_API_KEY axios cityName w =
      match axios (forecast_request key cityName) with
      | Resolved response =>
          (normalize cityName response, issued (forecast_request key cityName) w)
      | Rejected error => (Throw error, issued (forecast_request key cityName) w)
      end.
Proof.
  unfold getWeatherData, configured.
  destruct CWA_API_KEY as [[|c k]|]; intros H; try discriminate H.
  exists (String c k). split; [reflexivity|].
  unfold mbind, M_bind, axios_get, lift.
  destruct (axios _); reflexivity.
Qed.

Lemma getCityWeather_unfold cityKey w :
  getCityWeather CWA_API_KEY axios cityKey w =
    match getWeatherData CWA_API_KEY axios (CITY_MAP_get cityKey) w with
    | (Return weatherData, w') => res_json 200 (SuccessEnvelope true weatherData) w'
    | (Throw error, w') => on_error cityKey error w'
    end.
Proof.
  unfold getCityWeather, try_catch, mbind, M_bind, lift, resolve.
  destruct (getWeatherData _ _ _ w) as [[weatherData|error] w']; reflexivity.
Qed.

(** An error without [response] is answered with the 500 envelope. *)
Lemma on_error_plain cityKey error w :
  err_response error = None →
  on_error cityKey error w =
    (Return (),
     answered (log_line cityKey error)
       (server_error (str_or (err_message error) "無法取得天氣資料,請稍後再試")) w).
Proof.
  intros H. unfold on_error, mbind, M_bind, console_error. rewrite H. reflexivity.
Qed.

(** An error with a [response] whose body can be read is answered with the
    upstream status. *)
Lemma on_error_response cityKey error response message w :
  err_response error = Some response →
  read_message (data response) = Return message →
  on_error cityKey error w =
    (Return (),
     answered (log_line cityKey error)
       (mkHttp (status response)
          (ErrorEnvelope "CWA API 錯誤" (js_or message (JStr "無法取得天氣資料"))
             (Some (data response)))) w).
Proof.
  intros H Hm. unfold on_error, mbind, M_bind, console_error, lift.
  rewrite H, Hm. reflexivity.
Qed.

(** An error with a [response] whose body is [null] or [undefined] makes the
    [catch] block itself throw, after the log line and before any send. *)
Lemma on_error_unreadable cityKey error response e w :
  err_response error = Some response →
  read_message (data response) = Throw e →
  on_error cityKey error w =
    (Throw e, mkWorld (requests w) (console w ++ [log_line cityKey error]) (sent w)).
Proof.
  intros H Hm. unfold on_error, mbind, M_bind, console_error, lift.
  rewrite H, Hm. reflexivity.
Qed.

End Handler.

(** Every run of a handler ends in one of two ways: it has sent exactly one
    response, or the upstream error carried a body that is [null] or
    [undefined], the [catch] block threw while reading [data.message], and
    nothing was sent. *)
Lemma getCityWeather_responses key axios cityKey w :
  (∃ r, (getCityWeather key axios cityKey w).1 = Return ()
        ∧ sent (getCityWeather key axios cityKey w).2 = sent w ++ [r])
  ∨ (∃ error response e,
        (getWeatherData key axios (CITY_MAP_get cityKey) w).1 = Throw error
        ∧ err_response error = Some response
        ∧ (data response = JNull ∨ data response = JUndefined)
        ∧ (getCityWeather key axios cityKey w).1 = Throw e
        ∧ sent (getCityWeather key axios cityKey w).2 = sent w).
Proof.
  assert (Hsent : sent (getWeatherData key axios (CITY_MAP_get cityKey) w).2 = sent w).
  { destruct (configured key) eqn:Hk.
    - destruct (getWeatherData_configured key axios (CITY_MAP_get cityKey) w Hk)
        as (k & _ & ->).
      destruct (axios _); reflexivity.
    - rewrite getWeatherData_unconfigured by exact Hk. reflexivity. }
  rewrite getCityWeather_unfold.
  destruct (getWeatherData key axios (CITY_MAP_get cityKey) w)
    as [[weatherData|error] w']; simpl in Hsent.
  - left. eexists. split; [reflexivity|]. simpl. by rewrite Hsent.
  - destruct (err_response error) as [response|] eqn:Hr.
    + destruct (read_message (data response)) as [message|e] eqn:Hm.
      * left. eexists. rewrite (on_error_response _ _ _ _ _ Hr Hm).
        split; [reflexivity|]. simpl. by rewrite Hsent.
      * right. exists error, response, e.
        rewrite (on_error_unreadable _ _ _ _ _ Hr Hm). simpl.
        repeat split; try done.
        destruct (data response); try discriminate Hm; auto.
    + left. eexists. rewrite (on_error_plain _ _ _ Hr).
      split; [reflexivity|]. simpl. by rewrite Hsent.
Qed.

(** ** C5: no credential, no upstream call *)

(** C5. When [CWA_API_KEY] is unset (or empty), [getWeatherData] throws the
    missing-credential error at once and leaves the world as it found it, so
    no request has gone out; the handler then logs the failure and answers
    with exactly one response, the 500 error envelope carrying that message,
    and the list of upstream requests is unchanged. *)
Theorem C5_missing_credential key axios cityKey cityName w :
  configured key = false →
  getWeatherData key axios cityName w = (Throw (Error missing_key_message), w)
  ∧ getCityWeather key axios cityKey w =
      (Return (),
       answered (log_line cityKey (Error missing_key_message))
         (mkHttp 500 (ErrorEnvelope "伺服器錯誤" (JStr missing_key_message) None)) w)
  ∧ requests (getCityWeather key axios cityKey w).2 = requests w
  ∧ sent (getCityWeather key axios cityKey w).2 =
      sent w ++ [mkHttp 500 (ErrorEnvelope "伺服器錯誤" (JStr missing_key_message) None)].
Proof.
  intros Hk.
  assert (Hrun : getCityWeather key axios cityKey w =
      (Return (),
       answered (log_line cityKey (Error missing_key_message))
         (mkHttp 500 (ErrorEnvelope "伺服器錯誤" (JStr missing_key_message) None)) w)).
  { rewrite getCityWeather_unfold, getWeatherData_unconfigured by exact Hk.
    by rewrite on_error_plain. }
  split; [by apply getWeatherData_unconfigured|].
  rewrite Hrun. repeat split.
Qed.

(** C5 on the Taipei handler with no key in the environment. *)
Lemma C5_missing_credential_witness :
  getWeatherData None (λ _, Resolved Sample.taipei) (Locale "臺北市") world0
    = (Throw (Error missing_key_message), world0)
  ∧ requests (getCityWeather None (λ _, Resolved Sample.taipei) "taipei" world0).2 = []
  ∧ sent (getCityWeather None (λ _, Resolved Sample.taipei) "taipei" world0).2
    = [mkHttp 500 (ErrorEnvelope "伺服器錯誤" (JStr missing_key_message) None)].
Proof.
  destruct (C5_missing_credential None (λ _, Resolved Sample.taipei) "taipei"
              (Locale "臺北市") world0 eq_refl) as (H1 & _ & H3 & H4).
  exact (conj H1 (conj H3 H4)).
Defined.

(** ** C4: upstream failures are passed through *)



(** ** C1: a response without the city *)

(** C1 as stated fails: the code never compares [locationName] with the
    requested locale, it takes [location[0]].  Asked for 臺北市 and handed a
    collection that holds only the record of 新北市 (so no record matches), the
    normaliser returns that record's forecast and the handler answers 200. *)
Lemma C1_counterexample :
  (∀ l, l ∈ Upstream.location (Upstream.records (data Sample.newtaipei)) →
        Upstream.locationName l ≠ "臺北市")
  ∧ CITY_MAP_get "taipei" = Locale "臺北市"
  ∧ ∃ weatherData,
      city weatherData = "新北市"
      ∧ getWeatherData (Some "key") (λ _, Resolved Sample.newtaipei)
          (Locale "臺北市") world0
        = (Return weatherData, issued (forecast_request "key" (Locale "臺北市")) world0)
      ∧ sent (getCityWeather (Some "key") (λ _, Resolved Sample.newtaipei)
                "taipei" world0).2
        = [mkHttp 200 (SuccessEnvelope true weatherData)].
Proof.
  split; [|split].
  - intros l Hl. apply list_elem_of_singleton in Hl. subst l. discriminate.
  - reflexivity.
  - eexists. split; [|split]; [|reflexivity|reflexivity]. reflexivity.
Qed.

(** C1 (amended). When the credential is configured and the upstream answers
    with an empty location collection, [getWeatherData] throws an [Error]
    whose message embeds the string form of the requested locale, after its
    one upstream request, and the handler sends exactly one response: status
    500 with that message.  For a bound city key the embedded text is the
    locale name of the city. *)
Theorem C1_empty_location key axios cityKey response w :
  configured key = true →
  (∀ k, key = Some k →
        axios (forecast_request k (CITY_MAP_get cityKey)) = Resolved response) →
  Upstream.location (Upstream.records (data response)) = [] →
  (getWeatherData key axios (CITY_MAP_get cityKey) w).1
    = Throw (Error ("無法取得" +:+ ToString (CITY_MAP_get cityKey) +:+ "天氣資料"))
  ∧ sent (getCityWeather key axios cityKey w).2
    = sent w ++ [mkHttp 500
                   (ErrorEnvelope "伺服器錯誤"
                      (JStr ("無法取得" +:+ ToString (CITY_MAP_get cityKey)
                             +:+ "天氣資料")) None)]
  ∧ (∀ name, CITY_MAP !! cityKey = Some name →
             ToString (CITY_MAP_get cityKey) = name).
Proof.
  intros Hk Hax Hloc.
  destruct (getWeatherData_configured key axios (CITY_MAP_get cityKey) w Hk)
    as (k & Hkey & Hrun).
  rewrite (Hax k Hkey) in Hrun.
  assert (Hn : normalize (CITY_MAP_get cityKey) response
               = Throw (Error (not_found_message (CITY_MAP_get cityKey)))).
  { unfold normalize. by rewrite Hloc. }
  rewrite Hn in Hrun.
  split; [by rewrite Hrun|]. split.
  - rewrite getCityWeather_unfold, Hrun. by rewrite on_error_plain.
  - intros name Hname. unfold CITY_MAP_get. by rewrite Hname.
Qed.

(** C1 (amended) on the Taipei handler and an empty collection. *)
Lemma C1_empty_location_witness :
  (getWeatherData (Some "key") (λ _, Resolved Sample.empty) (CITY_MAP_get "taipei")
     world0).1
    = Throw (Error "無法取得臺北市天氣資料")
  ∧ sent (getCityWeather (Some "key") (λ _, Resolved Sample.empty) "taipei" world0).2
    = [mkHttp 500 (ErrorEnvelope "伺服器錯誤" (JStr "無法取得臺北市天氣資料") None)].
Proof.
  destruct (C1_empty_location (Some "key") (λ _, Resolved Sample.empty) "taipei"
              Sample.empty world0 eq_refl (λ _ _, eq_refl) eq_refl) as (H1 & H2 & _).
  exact (conj H1 H2).
Defined.

(** ** C2: the error mapping and the one case it misses *)

(** C2, evaluated at the failing input.  The upstream answers 503 with the
    JSON body [null]; axios rejects with an error whose [response.data] is
    [null]; in the [catch] block [error.response.data.message] throws a
    [TypeError]; the handler ends with that exception and has sent nothing. *)
Theorem C2_null_body_escapes :
  getCityWeather (Some "key") (λ _, Rejected Sample.null_body) "taipei" world0
  = (Throw (TypeError "Cannot read properties of null (reading 'message')"),
     mkWorld [forecast_request "key" (Locale "臺北市")]
       [("取得臺北市天氣資料失敗:", "Request failed with status code 503")]
       []).
Proof. reflexivity. Qed.

(** ** C8: the city table *)

Lemma CITY_MAP_other cityKey : cityKey ∉ city_keys → CITY_MAP !! cityKey = None.
Proof. intros H. unfold CITY_MAP. by apply not_elem_of_list_to_map_1. Qed.

(** The handler issues the requests of [getWeatherData] and no other. *)
Lemma getCityWeather_requests key axios cityKey w :
  requests (getCityWeather key axios cityKey w).2
  = requests (getWeatherData key axios (CITY_MAP_get cityKey) w).2.
Proof.
  rewrite getCityWeather_unfold.
  destruct (getWeatherData key axios (CITY_MAP_get cityKey) w)
    as [[weatherData|error] w']; [reflexivity|].
  unfold on_error, mbind, M_bind, console_error, lift.
  destruct (err_response error) as [response|]; [|reflexivity].
  destruct (read_message (data response)); reflexivity.
Qed.

Lemma unknown_key : "unknown" ∉ city_keys.
Proof.
  unfold city_keys. intros H.
  repeat (apply elem_of_cons in H as [H|H]; [discriminate H|]).
  by apply elem_of_nil in H.
Qed.

(** C8 as stated fails on its second half: an unknown key makes the lookup
    evaluate to [undefined], nothing is thrown, and the handler goes on to
    query the upstream with that value and to answer 200. *)
Lemma C8_counterexample :
  ("unknown" ∉ city_keys)
  ∧ resolve "unknown" = Return Undefined
  ∧ requests (getCityWeather (Some "key") (λ _, Resolved Sample.taipei)
                "unknown" world0).2
    = [forecast_request "key" Undefined]
  ∧ ∃ weatherData,
      sent (getCityWeather (Some "key") (λ _, Resolved Sample.taipei)
              "unknown" world0).2
      = [mkHttp 200 (SuccessEnvelope true weatherData)].
Proof.
  split; [|split; [|split]].
  - exact unknown_key.
  - reflexivity.
  - reflexivity.
  - eexists. reflexivity.
Qed.

(** C8 (amended). For each of the six city keys the lookup returns the
    corresponding locale name, which is not empty.  For any other key the
    lookup throws nothing: it evaluates to [undefined], or to the member of
    [Object.prototype] of that name, never to a locale name; and with a
    configured credential the handler still issues its upstream request, with
    that value as [locationName]. *)
Theorem C8_resolver :
  (resolve "taipei" = Return (Locale "臺北市")
   ∧ resolve "newtaipei" = Return (Locale "新北市")
   ∧ resolve "taoyuan" = Return (Locale "桃園市")
   ∧ resolve "taichung" = Return (Locale "臺中市")
   ∧ resolve "tainan" = Return (Locale "臺南市")
   ∧ resolve "kaohsiung" = Return (Locale "高雄市"))
  ∧ (∀ cityKey, cityKey ∈ city_keys →
       ∃ name, resolve cityKey = Return (Locale name) ∧ name ≠ "")
  ∧ (∀ cityKey, cityKey ∉ city_keys →
       (resolve cityKey = Return Undefined
        ∨ resolve cityKey = Return (Inherited cityKey))
       ∧ ∀ key axios w, configured key = true →
           ∃ k, key = Some k
                ∧ requests (getCityWeather key axios cityKey w).2
                  = requests w ++ [forecast_request k (CITY_MAP_get cityKey)]).
Proof.
  split; [repeat split|split].
  - intros cityKey H. unfold city_keys in H.
    repeat (apply elem_of_cons in H as [->|H];
            [eexists; split; [reflexivity|discriminate]|]).
    by apply elem_of_nil in H.
  - intros cityKey H. split.
    + unfold resolve, CITY_MAP_get. rewrite (CITY_MAP_other _ H).
      destruct (bool_decide _); auto.
    + intros key axios w Hk.
      destruct (getWeatherData_configured key axios (CITY_MAP_get cityKey) w Hk)
        as (k & Hkey & Hrun).
      exists k. split; [exact Hkey|].
      rewrite getCityWeather_requests, Hrun.
      destruct (axios _); reflexivity.
Qed.

(** C8 (amended) at the keys [tainan] and [unknown]. *)
Lemma C8_resolver_witness :
  (∃ name, resolve "tainan" = Return (Locale name) ∧ name ≠ "")
  ∧ (resolve "unknown" = Return Undefined
     ∨ resolve "unknown" = Return (Inherited "unknown"))
  ∧ ∃ k, Some "key" = Some k
         ∧ requests (getCityWeather (Some "key") (λ _, Resolved Sample.taipei)
                       "unknown" world0).2
           = requests world0 ++ [forecast_request k (CITY_MAP_get "unknown")].
Proof.
  destruct C8_resolver as (_ & Hin & Hout).
  split; [|split].
  - apply Hin. unfold city_keys. repeat constructor.
  - apply Hout. exact unknown_key.
  - apply (proj2 (Hout "unknown" unknown_key)). reflexivity.
Defined.

(** ** The normaliser, step by step *)

Lemma append_nonempty (s t : string) : t ≠ "" → s +:+ t ≠ "".
Proof. intros Ht. destruct s; [exact Ht|discriminate]. Qed.

(** What one [case] of the [switch] does to each field. *)
Lemma field_assign code code' value forecast :
  code ∈ element_codes →
  field code (assign code' value forecast) =
    if decide (code' = code) then rendered code value else field code forecast.
Proof.
  intros Hc. destruct forecast. unfold element_codes in Hc.
  repeat (apply elem_of_cons in Hc as [->|Hc]);
    [..|by apply elem_of_nil in Hc];
    unfold assign; case_code code'; case_decide; try congruence; reflexivity.
Qed.

Lemma assign_unrecognized code value forecast :
  code ∉ element_codes → assign code value forecast = forecast.
Proof.
  intros Hc. destruct forecast. unfold assign.
  case_code code; try reflexivity; exfalso; apply Hc; unfold element_codes;
    repeat constructor.
Qed.

Lemma assign_times code value forecast :
  startTime (assign code value forecast) = startTime forecast
  ∧ endTime (assign code value forecast) = endTime forecast.
Proof. destruct forecast. unfold assign. case_code code; split; reflexivity. Qed.

(** A forecast is determined by its two times and its six fields. *)
Lemma forecast_eq f g :
  startTime f = startTime g → endTime f = endTime g →
  (∀ code, code ∈ element_codes → field code f = field code g) →
  f = g.
Proof.
  intros Hs He Hf. destruct f, g. simpl in *. subst.
  pose proof (Hf "Wx" ltac:(repeat constructor)) as H1.
  pose proof (Hf "PoP" ltac:(repeat constructor)) as H2.
  pose proof (Hf "MinT" ltac:(repeat constructor)) as H3.
  pose proof (Hf "MaxT" ltac:(repeat constructor)) as H4.
  pose proof (Hf "CI" ltac:(repeat constructor)) as H5.
  pose proof (Hf "WS" ltac:(repeat constructor)) as H6.
  cbn in *. congruence.
Qed.

(** Two [case]s with different codes commute; so do any two when one of the
    codes is not recognised. *)
Lemma assign_comm c1 v1 c2 v2 forecast :
  c1 ≠ c2 ∨ c1 ∉ element_codes →
  assign c1 v1 (assign c2 v2 forecast) = assign c2 v2 (assign c1 v1 forecast).
Proof.
  intros [Hne|Hout].
  - apply forecast_eq.
    + by rewrite !(proj1 (assign_times _ _ _)).
    + by rewrite !(proj2 (assign_times _ _ _)).
    + intros code Hc. rewrite !field_assign by exact Hc.
      repeat case_decide; congruence.
  - by rewrite !(assign_unrecognized c1).
Qed.

(** The callback of [forEach] throws as soon as one element has no entry
    [i]; whatever the position of that element, the error is the same. *)
Lemma forEach_Throw i es forecast element :
  element ∈ es → length (Upstream.time element) ≤ i →
  forEach i es forecast = Throw missing_entry.
Proof.
  intros Hin Hlen. revert forecast.
  induction es as [|e es IH]; intros forecast.
  - by apply elem_of_nil in Hin.
  - cbn. destruct (Upstream.time e !! i) as [entry|] eqn:He; [|reflexivity].
    apply elem_of_cons in Hin as [->|Hin].
    + apply lookup_ge_None_2 in Hlen. congruence.
    + by apply IH.
Qed.

Lemma forEach_Throw_inv i es forecast e :
  forEach i es forecast = Throw e → e = missing_entry.
Proof.
  revert forecast. induction es as [|x es IH]; intros forecast; cbn.
  - discriminate.
  - destruct (Upstream.time x !! i); [apply IH|by intros [= <-]].
Qed.

Lemma forEach_Return i es forecast :
  (∀ element, element ∈ es → i < length (Upstream.time element)) →
  ∃ forecast', forEach i es forecast = Return forecast'.
Proof.
  intros Hlen.
  destruct (forEach i es forecast) as [f|e] eqn:Hrun; [by eexists|].
  exfalso. revert forecast Hrun.
  induction es as [|x es IH]; intros forecast; cbn; [discriminate|].
  destruct (lookup_lt_is_Some_2 (Upstream.time x) i) as [entry ->].
  { apply Hlen. left. }
  apply IH. intros element Hin. apply Hlen. by right.
Qed.

Lemma forEach_times i es forecast forecast' :
  forEach i es forecast = Return forecast' →
  startTime forecast' = startTime forecast ∧ endTime forecast' = endTime forecast.
Proof.
  revert forecast. induction es as [|x es IH]; intros forecast; cbn.
  - intros [= ->]. done.
  - destruct (Upstream.time x !! i) as [entry|]; [|discriminate].
    intros Hrun. apply IH in Hrun as [-> ->]. apply assign_times.
Qed.

(** The field of a recognised code holds the text of an element with that
    code when there is one, and is left as it was otherwise. *)
Lemma forEach_field (Q : string → Prop) code i es forecast forecast' :
  code ∈ element_codes →
  forEach i es forecast = Return forecast' →
  (∀ element entry,
     element ∈ es → Upstream.elementName element = code →
     Upstream.time element !! i = Some entry →
     Q (rendered code (Upstream.parameter entry))) →
  Q (field code forecast)
  ∨ (∃ element, element ∈ es ∧ Upstream.elementName element = code) →
  Q (field code forecast').
Proof.
  intros Hc. revert forecast.
  induction es as [|x es IH]; intros forecast; cbn.
  - intros [= ->] _ [H|(element & Hin & _)]; [exact H|].
    by apply elem_of_nil in Hin.
  - destruct (Upstream.time x !! i) as [entry|] eqn:Hx; [|discriminate].
    intros Hrun HQ Hsrc. eapply IH; [exact Hrun| |].
    + intros element entry' Hin. apply HQ. by right.
    + rewrite field_assign by exact Hc.
      case_decide as Hname.
      * left. apply (HQ x entry); [left|exact Hname|exact Hx].
      * destruct Hsrc as [H|(element & Hin & Hel)]; [by left|].
        apply elem_of_cons in Hin as [->|Hin]; [congruence|].
        right. by exists element.
Qed.

(** Reordering the elements does not change what [forEach] computes, provided
    no recognised code occurs twice. *)
Lemma forEach_perm i es es' :
  es ≡ₚ es' → distinct_codes es →
  ∀ forecast, forEach i es forecast = forEach i es' forecast.
Proof.
  unfold distinct_codes.
  induction 1 as [|x l l' Hp IH|x y l|l l' l'' Hp1 IH1 Hp2 IH2]; intros Hd forecast.
  - reflexivity.
  - cbn. destruct (Upstream.time x !! i); [|reflexivity].
    apply IH. rewrite fmap_cons in Hd.
    destruct (decide (Upstream.elementName x ∈ element_codes)) as [Hx|Hx].
    + rewrite filter_cons_True in Hd by exact Hx. by apply NoDup_cons in Hd as [_ Hd].
    + by rewrite filter_cons_False in Hd by exact Hx.
  - cbn. destruct (Upstream.time y !! i) as [ey|], (Upstream.time x !! i) as [ex|];
      try reflexivity.
    f_equal. apply assign_comm.
    destruct (decide (Upstream.elementName x ∈ element_codes)) as [Hx|Hx]; [|by right].
    left. intros Heq. rewrite !fmap_cons in Hd.
    rewrite filter_cons_True in Hd by (by rewrite <- Heq).
    rewrite filter_cons_True in Hd by exact Hx.
    apply NoDup_cons in Hd as [Hd _]. apply Hd. rewrite Heq. left.
  - rewrite IH1 by exact Hd. apply IH2. by rewrite <- Hp1.
Qed.

(** Elements with an unrecognised code contribute nothing, as long as they
    have an entry to read. *)
Lemma forEach_filter i es forecast :
  (∀ element, element ∈ es → Upstream.elementName element ∉ element_codes →
              i < length (Upstream.time element)) →
  forEach i (filter (λ element, Upstream.elementName element ∈ element_codes) es)
    forecast
  = forEach i es forecast.
Proof.
  revert forecast. induction es as [|x es IH]; intros forecast Hlen; [reflexivity|].
  assert (Hrest : ∀ element, element ∈ es →
            Upstream.elementName element ∉ element_codes →
            i < length (Upstream.time element)).
  { intros element Hin. apply Hlen. by right. }
  destruct (decide (Upstream.elementName x ∈ element_codes)) as [Hx|Hx].
  - rewrite filter_cons_True by exact Hx. cbn.
    destruct (Upstream.time x !! i); [by apply IH|reflexivity].
  - rewrite filter_cons_False by exact Hx. cbn.
    destruct (lookup_lt_is_Some_2 (Upstream.time x) i) as [entry ->].
    { apply Hlen; [left|exact Hx]. }
    rewrite assign_unrecognized by exact Hx. by apply IH.
Qed.

(** Entries at or beyond index [n] are not read while [i < n]. *)
Lemma forEach_truncate i n es forecast :
  i < n → forEach i (truncate n <$> es) forecast = forEach i es forecast.
Proof.
  intros Hi. revert forecast. induction es as [|x es IH]; intros forecast; [reflexivity|].
  cbn. rewrite lookup_take_lt by exact Hi.
  destruct (Upstream.time x !! i); [apply IH|reflexivity].
Qed.

(** The loop. *)
Lemma for_loop_ext body body' indices forecasts :
  (∀ i, i ∈ indices → body i = body' i) →
  for_loop body indices forecasts = for_loop body' indices forecasts.
Proof.
  revert forecasts. induction indices as [|i indices IH]; intros forecasts Hb; [reflexivity|].
  cbn. rewrite <- (Hb i) by left.
  destruct (body i); [|reflexivity].
  apply IH. intros j Hj. apply Hb. by right.
Qed.

Lemma for_loop_Return body indices forecasts :
  (∀ i, i ∈ indices → ∃ forecast, body i = Return forecast) →
  ∃ pushed, for_loop body indices forecasts = Return (forecasts ++ pushed)
            ∧ Forall2 (λ i forecast, body i = Return forecast) indices pushed.
Proof.
  revert forecasts. induction indices as [|i indices IH]; intros forecasts Hb.
  - exists []. split; [by rewrite app_nil_r|constructor].
  - destruct (Hb i) as [forecast Hi]; [left|].
    destruct (IH (forecasts ++ [forecast])) as (pushed & Hrun & Hall).
    { intros j Hj. apply Hb. by right. }
    exists (forecast :: pushed). split.
    + cbn. rewrite Hi, Hrun. by rewrite <- app_assoc.
    + by constructor.
Qed.

Lemma for_loop_Throw body indices forecasts error :
  (∀ i e, i ∈ indices → body i = Throw e → e = error) →
  (∃ i, i ∈ indices ∧ body i = Throw error) →
  for_loop body indices forecasts = Throw error.
Proof.
  revert forecasts. induction indices as [|i indices IH]; intros forecasts Hall (j & Hj & Hthrow).
  - by apply elem_of_nil in Hj.
  - cbn. destruct (body i) as [forecast|e] eqn:Hi.
    + apply IH.
      * intros k e Hk. apply Hall. by right.
      * apply elem_of_cons in Hj as [->|Hj]; [congruence|]. by exists j.
    + f_equal. apply (Hall i); [left|exact Hi].
Qed.

(** [normalize] once the first weather element is known. *)
Lemma normalize_elements cityName response first :
  elements_of response !! 0%nat = Some first →
  ∃ locationData,
    Upstream.location (Upstream.records (data response)) !! 0%nat = Some locationData
    ∧ Upstream.weatherElement locationData = elements_of response
    ∧ normalize cityName response =
        forecasts ← for_loop (forecast_at first (elements_of response))
                       (seq 0 (length (Upstream.time first))) [];
        Return
          (mkWeatherData (Upstream.locationName locationData)
             (Upstream.datasetDescription (Upstream.records (data response)))
             forecasts).
Proof.
  unfold elements_of, normalize.
  destruct (Upstream.location (Upstream.records (data response)) !! 0%nat)
    as [locationData|]; [|discriminate].
  intros Hfirst. exists locationData. rewrite Hfirst. done.
Qed.

(** ** C3: one populated forecast per interval *)

(** C3 as stated fails, in two ways.  With all six codes present at both
    indices and one more element, of unknown code, that has a single interval,
    the loop throws at index 1 and no forecast is produced.  With the six
    elements aligned and the upstream weather text of the first interval
    empty, the forecast of that interval has an empty [weather]. *)
Lemma C3_counterexample :
  (present_at_every_index Sample.short_extra
   ∧ normalize (Locale "臺北市") Sample.short_extra = Throw missing_entry)
  ∧ (present_at_every_index Sample.blank_weather
     ∧ ∃ weatherData forecast,
         normalize (Locale "臺北市") Sample.blank_weather = Return weatherData
         ∧ forecasts weatherData !! 0 = Some forecast
         ∧ weather forecast = ""
         ∧ ¬ complete Sample.blank_weather weatherData).
Proof.
  split; split; try compute_done.
  eexists _, _. split; [reflexivity|]. split; [reflexivity|]. split; [reflexivity|].
  intros [_ Hall].
  destruct (Hall 0 (Sample.entry Sample.t0 Sample.t1 "") eq_refl)
    as (forecast & Hf & _ & _ & Hw & _).
  cbn in Hf. injection Hf as <-. by apply Hw.
Qed.

(** C3 (amended). Let N be the length of the first weather element's time
    series.  If every recognised code is carried by some element, every
    element has at least N intervals, and the upstream values of the
    text-valued codes (Wx, CI, WS) are non-empty at the indices below N, then
    the normaliser returns exactly N forecasts; the forecast at index [i] has
    the start and end of the first element's [i]-th entry, and its six
    semantic fields are non-empty. *)
Theorem C3_complete_forecast cityName response :
  (∀ code, code ∈ element_codes →
     ∃ element, element ∈ elements_of response
                ∧ Upstream.elementName element = code) →
  (∀ element, element ∈ elements_of response →
     timeCount_of response ≤ length (Upstream.time element)) →
  (∀ element i entry,
     element ∈ elements_of response →
     Upstream.elementName element ∈ text_codes →
     i < timeCount_of response →
     Upstream.time element !! i = Some entry →
     Upstream.parameterName (Upstream.parameter entry) ≠ "") →
  ∃ weatherData,
    normalize cityName response = Return weatherData
    ∧ length (forecasts weatherData) = timeCount_of response
    ∧ ∀ i entry,
        first_times response !! i = Some entry →
        ∃ forecast,
          forecasts weatherData !! i = Some forecast
          ∧ startTime forecast = Upstream.startTime entry
          ∧ endTime forecast = Upstream.endTime entry
          ∧ weather forecast ≠ "" ∧ rain forecast ≠ "" ∧ minTemp forecast ≠ ""
          ∧ maxTemp forecast ≠ "" ∧ comfort forecast ≠ ""
          ∧ windSpeed forecast ≠ "".
Proof.
  intros Hpresent Hlen Htext.
  destruct (elements_of response !! 0) as [first|] eqn:Hfirst.
  2:{ destruct (Hpresent "Wx") as (element & Hin & _); [repeat constructor|].
      destruct (elements_of response); [by apply elem_of_nil in Hin|discriminate]. }
  destruct (normalize_elements cityName response first Hfirst)
    as (locationData & _ & _ & Hrun).
  assert (Htimes : first_times response = Upstream.time first).
  { unfold first_times. by rewrite Hfirst. }
  unfold timeCount_of in *. rewrite Htimes in *.
  set (N := length (Upstream.time first)) in *.
  destruct (for_loop_Return (forecast_at first (elements_of response)) (seq 0 N) [])
    as (pushed & Hloop & Hall).
  { intros i Hi. apply elem_of_seq in Hi as [_ Hi]. unfold forecast_at.
    destruct (lookup_lt_is_Some_2 (Upstream.time first) i) as [entry ->]; [exact Hi|].
    apply forEach_Return. intros element Hin. specialize (Hlen element Hin). lia. }
  rewrite Hloop in Hrun. eexists. split; [exact Hrun|]. cbn.
  split; [apply Forall2_length in Hall; by rewrite length_seq in Hall|].
  intros i entry Hentry.
  assert (Hi : i < N) by (by apply lookup_lt_Some in Hentry).
  destruct (Forall2_lookup_l _ _ _ i i Hall) as (forecast & Hf & Hbody).
  { by rewrite lookup_seq_lt. }
  exists forecast. split; [exact Hf|].
  unfold forecast_at in Hbody. rewrite Hentry in Hbody.
  destruct (forEach_times _ _ _ _ Hbody) as [-> ->].
  split; [reflexivity|]. split; [reflexivity|].
  assert (Hfield : ∀ code, code ∈ element_codes → field code forecast ≠ "").
  { intros code Hc.
    apply (forEach_field (λ s, s ≠ "") code i _ _ _ Hc Hbody); [|right; by apply Hpresent].
    intros element entry' Hin Hname Hentry'.
    unfold element_codes in Hc.
    repeat (apply elem_of_cons in Hc as [->|Hc]); [..|by apply elem_of_nil in Hc];
      cbn; try (by apply append_nonempty);
      apply (Htext element i entry' Hin); try done;
      rewrite Hname; unfold text_codes; repeat constructor. }
  repeat split; [apply (Hfield "Wx")|apply (Hfield "PoP")|apply (Hfield "MinT")
                 |apply (Hfield "MaxT")|apply (Hfield "CI")|apply (Hfield "WS")];
    unfold element_codes; repeat constructor.
Qed.

(** C3 (amended) on the two-interval sample payload. *)
Lemma C3_complete_forecast_witness :
  ∃ weatherData,
    normalize (Locale "臺北市") Sample.taipei = Return weatherData
    ∧ length (forecasts weatherData) = timeCount_of Sample.taipei
    ∧ ∀ i entry,
        first_times Sample.taipei !! i = Some entry →
        ∃ forecast,
          forecasts weatherData !! i = Some forecast
          ∧ startTime forecast = Upstream.startTime entry
          ∧ endTime forecast = Upstream.endTime entry
          ∧ weather forecast ≠ "" ∧ rain forecast ≠ "" ∧ minTemp forecast ≠ ""
          ∧ maxTemp forecast ≠ "" ∧ comfort forecast ≠ ""
          ∧ windSpeed forecast ≠ "".
Proof.
  apply (C3_complete_forecast (Locale "臺北市") Sample.taipei).
  - intros code Hc. apply Exists_exists. revert code Hc. apply Forall_forall.
    compute_done.
  - apply Forall_forall. compute_done.
  - intros element i entry Hin Hname Hi Hentry.
    assert (Hall : Forall
              (λ e, Upstream.elementName e ∈ text_codes →
                    Forall (λ t, Upstream.parameterName (Upstream.parameter t) ≠ "")
                      (Upstream.time e))
              (elements_of Sample.taipei)) by compute_done.
    rewrite Forall_forall in Hall. specialize (Hall element Hin Hname).
    rewrite Forall_forall in Hall. apply Hall.
    by apply list_elem_of_lookup_2 with i.
Defined.

(** ** C6: the order of the elements *)

Lemma normalize_cons cityName code description name es others :
  normalize cityName
    (mkResponse code
       (Upstream.mkBody
          (Upstream.mkRecords description (Upstream.mkLocation name es :: others))))
  = match es !! 0 with
    | None => Throw (TypeError "Cannot read properties of undefined (reading 'time')")
    | Some first =>
        forecasts ← for_loop (forecast_at first es)
                       (seq 0 (length (Upstream.time first))) [];
        Return (mkWeatherData name description forecasts)
    end.
Proof. reflexivity. Qed.

Lemma boundaries_lookup e1 e2 i :
  boundaries e1 = boundaries e2 →
  match Upstream.time e1 !! i, Upstream.time e2 !! i with
  | Some t1, Some t2 =>
      Upstream.startTime t1 = Upstream.startTime t2
      ∧ Upstream.endTime t1 = Upstream.endTime t2
  | None, None => True
  | _, _ => False
  end.
Proof.
  unfold boundaries. intros H.
  apply (f_equal (λ l, l !! i)) in H. rewrite !list_lookup_fmap in H.
  destruct (Upstream.time e1 !! i), (Upstream.time e2 !! i);
    cbn in H; try discriminate H; [|exact I].
  by injection H.
Qed.

(** C6 as stated fails: two aligned elements that carry the same code are
    both dispatched to the same field, and the later one wins, so swapping
    them changes the output. *)
Lemma C6_counterexample :
  aligned (elements_of Sample.twice)
  ∧ elements_of Sample.twice ≡ₚ Sample.rainy_then_sunny
  ∧ normalize (Locale "臺北市") (with_elements Sample.rainy_then_sunny Sample.twice)
    ≠ normalize (Locale "臺北市") Sample.twice.
Proof.
  split; [|split].
  - intros e1 e2 H1 H2. cbn in H1, H2.
    repeat (apply elem_of_cons in H1 as [->|H1]); [..|by apply elem_of_nil in H1];
      (repeat (apply elem_of_cons in H2 as [->|H2]); [..|by apply elem_of_nil in H2]);
      reflexivity.
  - apply Permutation_swap.
  - vm_compute. discriminate.
Qed.

(** C6 (amended). For a response whose elements satisfy the alignment
    invariant and in which no recognised code is carried by two elements,
    putting the weather elements of the location record in any other order
    leaves the result of the normaliser unchanged. *)
Theorem C6_reorder cityName response es' :
  aligned (elements_of response) →
  distinct_codes (elements_of response) →
  elements_of response ≡ₚ es' →
  normalize cityName (with_elements es' response) = normalize cityName response.
Proof.
  destruct response as [code [[description [|[name es] others]]]];
    [reflexivity|].
  unfold with_elements, elements_of. cbn [data Upstream.records Upstream.location
    Upstream.datasetDescription Upstream.locationName Upstream.weatherElement
    status lookup list_lookup].
  intros Haligned Hdistinct Hperm. rewrite !normalize_cons.
  destruct es as [|first rest].
  { apply Permutation_nil_l in Hperm as <-. reflexivity. }
  destruct es' as [|first' rest'].
  { by apply Permutation_nil_r in Hperm. }
  cbn [lookup list_lookup].
  assert (Hb : boundaries first = boundaries first').
  { apply Haligned; [left|]. rewrite Hperm. left. }
  assert (Hlen : length (Upstream.time first') = length (Upstream.time first)).
  { apply (f_equal length) in Hb. unfold boundaries in Hb.
    by rewrite !length_fmap in Hb. }
  rewrite Hlen. f_equal. apply for_loop_ext. intros i _.
  unfold forecast_at. pose proof (boundaries_lookup first first' i Hb) as Hi.
  destruct (Upstream.time first !! i), (Upstream.time first' !! i); try done.
  destruct Hi as [-> ->]. symmetry. by apply forEach_perm.
Qed.

(** C6 (amended) on the sample payload with its elements reversed. *)
Lemma C6_reorder_witness :
  normalize (Locale "臺北市") (with_elements Sample.shuffled Sample.taipei)
  = normalize (Locale "臺北市") Sample.taipei.
Proof.
  apply C6_reorder.
  - intros e1 e2 H1 H2. cbn in H1, H2.
    repeat (apply elem_of_cons in H1 as [->|H1]); [..|by apply elem_of_nil in H1];
      (repeat (apply elem_of_cons in H2 as [->|H2]); [..|by apply elem_of_nil in H2]);
      reflexivity.
  - unfold distinct_codes. compute_done.
  - symmetry. apply reverse_Permutation.
Defined.

(** ** C7: elements with an unknown code *)

(** C7 as stated fails: [element.time[i].parameter] is read for every
    element before the [switch], so an element with an unknown code and fewer
    intervals than the first element makes the normaliser throw, although the
    same response without that element is normalised. *)
Lemma C7_counterexample :
  (∃ first, elements_of Sample.short_extra !! 0 = Some first
            ∧ Upstream.elementName first ∈ element_codes)
  ∧ normalize (Locale "臺北市") Sample.short_extra = Throw missing_entry
  ∧ ∃ weatherData,
      normalize (Locale "臺北市")
        (with_elements
           (filter (λ element, Upstream.elementName element ∈ element_codes)
              (elements_of Sample.short_extra))
           Sample.short_extra)
      = Return weatherData.
Proof.
  split; [|split].
  - eexists. split; [reflexivity|]. compute_done.
  - reflexivity.
  - eexists. vm_compute. reflexivity.
Qed.

(** C7 (amended). When the first element has a recognised code and every
    element with an unrecognised code has at least as many intervals as the
    first element, the normaliser gives the same result, value or failure, as
    on the response with the unrecognised elements removed; and the [switch]
    leaves every field as it was for an unrecognised code. *)
Theorem C7_unrecognized_ignored cityName response first :
  elements_of response !! 0 = Some first →
  Upstream.elementName first ∈ element_codes →
  (∀ element, element ∈ elements_of response →
     Upstream.elementName element ∉ element_codes →
     timeCount_of response ≤ length (Upstream.time element)) →
  normalize cityName
    (with_elements
       (filter (λ element, Upstream.elementName element ∈ element_codes)
          (elements_of response))
       response)
  = normalize cityName response
  ∧ ∀ code value forecast,
      code ∉ element_codes → assign code value forecast = forecast.
Proof.
  intros Hfirst Hrec Hlen. split; [|apply assign_unrecognized].
  unfold timeCount_of, first_times in Hlen. rewrite Hfirst in Hlen.
  destruct response as [code [[description [|[name es] others]]]];
    [discriminate Hfirst|].
  unfold with_elements, elements_of in *. cbn [data Upstream.records Upstream.location
    Upstream.datasetDescription Upstream.locationName Upstream.weatherElement
    status lookup list_lookup] in *.
  rewrite !normalize_cons, Hfirst.
  destruct es as [|x rest]; [discriminate Hfirst|].
  injection Hfirst as ->.
  rewrite (filter_cons_True _ first rest Hrec) at 1. cbn [lookup list_lookup].
  f_equal. apply for_loop_ext. intros i Hi. apply elem_of_seq in Hi as [_ Hi].
  unfold forecast_at. destruct (Upstream.time first !! i); [|reflexivity].
  apply forEach_filter. intros element Hin Hout.
  specialize (Hlen element Hin Hout). cbn in Hi. lia.
Qed.

(** C7 (amended) on the sample payload followed by a longer unknown element. *)
Lemma C7_unrecognized_ignored_witness :
  normalize (Locale "臺北市")
    (with_elements
       (filter (λ element, Upstream.elementName element ∈ element_codes)
          (elements_of Sample.long_extra))
       Sample.long_extra)
  = normalize (Locale "臺北市") Sample.long_extra.
Proof.
  refine (proj1 (C7_unrecognized_ignored (Locale "臺北市") Sample.long_extra
                   (Upstream.mkElement "Wx" (Sample.series "晴時多雲" "多雲"))
                   eq_refl _ _)).
  - compute_done.
  - apply (proj1 (Forall_forall
                    (λ element, Upstream.elementName element ∉ element_codes →
                                timeCount_of Sample.long_extra
                                ≤ length (Upstream.time element)) _)).
    compute_done.
Defined.

(** ** C9: series of different lengths *)

(** C9. With a configured credential and an upstream answer in which some
    weather element has fewer intervals than the first one, the normaliser
    returns no forecast: it throws the [TypeError] of reading [parameter] on a
    missing time entry, and the handler sends exactly one response, the 500
    error envelope with that message.  Conversely the intervals an element has
    beyond the count of the first element are never read: cutting every
    element down to that count leaves the result unchanged. *)
Theorem C9_misaligned key axios cityKey response w :
  configured key = true →
  (∀ k, key = Some k →
        axios (forecast_request k (CITY_MAP_get cityKey)) = Resolved response) →
  ((∃ element, element ∈ elements_of response
               ∧ length (Upstream.time element) < timeCount_of response) →
   normalize (CITY_MAP_get cityKey) response
     = Throw (TypeError "Cannot read properties of undefined (reading 'parameter')")
   ∧ sent (getCityWeather key axios cityKey w).2
     = sent w ++ [mkHttp 500
                    (ErrorEnvelope "伺服器錯誤"
                       (JStr "Cannot read properties of undefined (reading 'parameter')")
                       None)])
  ∧ normalize (CITY_MAP_get cityKey)
      (with_elements (truncate (timeCount_of response) <$> elements_of response)
         response)
    = normalize (CITY_MAP_get cityKey) response.
Proof.
  intros Hk Hax. split.
  - intros (element & Hin & Hshort).
    assert (Hn : normalize (CITY_MAP_get cityKey) response = Throw missing_entry).
    { unfold timeCount_of, first_times in Hshort.
      destruct (elements_of response !! 0) as [first|] eqn:Hfirst; [|cbn in Hshort; lia].
      destruct (normalize_elements (CITY_MAP_get cityKey) response first Hfirst)
        as (locationData & _ & _ & ->).
      rewrite (for_loop_Throw _ _ _ missing_entry); [reflexivity| |].
      - intros i e Hi. apply elem_of_seq in Hi as [_ Hi]. unfold forecast_at.
        destruct (lookup_lt_is_Some_2 (Upstream.time first) i) as [entry ->];
          [exact Hi|].
        apply forEach_Throw_inv.
      - exists (length (Upstream.time element)). split.
        + apply elem_of_seq. lia.
        + unfold forecast_at.
          destruct (lookup_lt_is_Some_2 (Upstream.time first)
                      (length (Upstream.time element))) as [entry ->];
            [exact Hshort|].
          by apply forEach_Throw with element. }
    split; [exact Hn|].
    destruct (getWeatherData_configured key axios (CITY_MAP_get cityKey) w Hk)
      as (k & Hkey & Hrun).
    rewrite (Hax k Hkey), Hn in Hrun.
    rewrite getCityWeather_unfold, Hrun. by rewrite on_error_plain.
  - generalize (CITY_MAP_get cityKey) as cityName. intros cityName.
    destruct response as [code [[description [|[name es] others]]]];
      [reflexivity|].
    unfold timeCount_of, first_times, with_elements, elements_of.
    cbn [data Upstream.records Upstream.location
      Upstream.datasetDescription Upstream.locationName Upstream.weatherElement
      status lookup list_lookup].
    rewrite !normalize_cons.
    destruct es as [|first rest]; [reflexivity|].
    cbn [lookup list_lookup fmap list_fmap truncate Upstream.time].
    rewrite firstn_all. f_equal. apply for_loop_ext.
    intros i Hi. apply elem_of_seq in Hi as [_ Hi]. cbn in Hi. unfold forecast_at.
    replace (Upstream.time (truncate (length (Upstream.time first)) first) !! i)
      with (Upstream.time first !! i)
      by (symmetry; apply lookup_take_lt; lia).
    destruct (Upstream.time first !! i); [|reflexivity].
    apply (forEach_truncate i (length (Upstream.time first)) (first :: rest)). lia.
Qed.

(** C9 on a precipitation series one interval short, and one interval long. *)
Lemma C9_misaligned_witness :
  (normalize (CITY_MAP_get "taipei") Sample.short_pop
     = Throw (TypeError "Cannot read properties of undefined (reading 'parameter')")
   ∧ sent (getCityWeather (Some "key") (λ _, Resolved Sample.short_pop) "taipei"
             world0).2
     = [mkHttp 500
          (ErrorEnvelope "伺服器錯誤"
             (JStr "Cannot read properties of undefined (reading 'parameter')")
             None)])
  ∧ normalize (CITY_MAP_get "taipei")
      (with_elements
         (truncate (timeCount_of Sample.long_pop) <$> elements_of Sample.long_pop)
         Sample.long_pop)
    = normalize (CITY_MAP_get "taipei") Sample.long_pop.
Proof.
  split.
  - apply (proj1 (C9_misaligned (Some "key") (λ _, Resolved Sample.short_pop)
                    "taipei" Sample.short_pop world0 eq_refl (λ _ _, eq_refl))).
    exists (Upstream.mkElement "PoP" [Sample.entry Sample.t0 Sample.t1 "10"]).
    split; [cbn; right; left|cbn; lia].
  - exact (proj2 (C9_misaligned (Some "key") (λ _, Resolved Sample.long_pop)
                    "taipei" Sample.long_pop world0 eq_refl (λ _ _, eq_refl))).
Defined.

(** ** C10: a location record without weather elements *)

(** C10. With a configured credential and an upstream answer whose first
    location record has an empty [weatherElement] collection, the normaliser
    throws the [TypeError] of reading [time] on [undefined] and the handler
    sends exactly one response, the 500 error envelope with that message.
    Whenever the normaliser does return a forecast, the location record had
    at least one weather element. *)
Theorem C10_no_elements key axios cityKey response w :
  configured key = true →
  (∀ k, key = Some k →
        axios (forecast_request k (CITY_MAP_get cityKey)) = Resolved response) →
  ((∃ locationData,
      Upstream.location (Upstream.records (data response)) !! 0 = Some locationData
      ∧ Upstream.weatherElement locationData = []) →
   normalize (CITY_MAP_get cityKey) response
     = Throw (TypeError "Cannot read properties of undefined (reading 'time')")
   ∧ sent (getCityWeather key axios cityKey w).2
     = sent w ++ [mkHttp 500
                    (ErrorEnvelope "伺服器錯誤"
                       (JStr "Cannot read properties of undefined (reading 'time')")
                       None)])
  ∧ (∀ weatherData,
       normalize (CITY_MAP_get cityKey) response = Return weatherData →
       ∃ locationData first,
         Upstream.location (Upstream.records (data response)) !! 0 = Some locationData
         ∧ Upstream.weatherElement locationData !! 0 = Some first).
Proof.
  intros Hk Hax. split.
  - intros (locationData & Hloc & Hnone).
    assert (Hn : normalize (CITY_MAP_get cityKey) response
                 = Throw (TypeError (undefined_read "time"))).
    { unfold normalize. by rewrite Hloc, Hnone. }
    split; [exact Hn|].
    destruct (getWeatherData_configured key axios (CITY_MAP_get cityKey) w Hk)
      as (k & Hkey & Hrun).
    rewrite (Hax k Hkey), Hn in Hrun.
    rewrite getCityWeather_unfold, Hrun. by rewrite on_error_plain.
  - intros weatherData. unfold normalize.
    destruct (Upstream.location (Upstream.records (data response)) !! 0)
      as [locationData|]; [|discriminate].
    destruct (Upstream.weatherElement locationData !! 0) as [first|] eqn:Hfirst;
      [|discriminate].
    intros _. by exists locationData, first.
Qed.

(** C10 on a location record without weather elements. *)
Lemma C10_no_elements_witness :
  normalize (CITY_MAP_get "taipei") Sample.bare
    = Throw (TypeError "Cannot read properties of undefined (reading 'time')")
  ∧ sent (getCityWeather (Some "key") (λ _, Resolved Sample.bare) "taipei" world0).2
    = [mkHttp 500
         (ErrorEnvelope "伺服器錯誤"
            (JStr "Cannot read properties of undefined (reading 'time')") None)].
Proof.
  apply (proj1 (C10_no_elements (Some "key") (λ _, Resolved Sample.bare)
                  "taipei" Sample.bare world0 eq_refl (λ _ _, eq_refl))).
  eexists. split; reflexivity.
Defined.

(** * Further properties of the handler *)

Lemma getWeatherData_traces key axios cityName w :
  sent (getWeatherData key axios cityName w).2 = sent w
  ∧ console (getWeatherData key axios cityName w).2 = console w
  ∧ requests (getWeatherData key axios cityName w).2
    = requests w ++ (if configured key
                     then [forecast_request (default "" key) cityName]
                     else []).
Proof.
  destruct (configured key) eqn:Hk.
  - destruct (getWeatherData_configured key axios cityName w Hk) as (k & -> & ->).
    destruct (axios _); done.
  - rewrite getWeatherData_unconfigured by exact Hk. cbn. by rewrite app_nil_r.
Qed.

Lemma read_message_unreadable payload :
  unreadable payload ↔ ∃ e, read_message payload = Throw e.
Proof.
  unfold unreadable. split.
  - intros [->| ->]; eexists; reflexivity.
  - intros [e He]. destruct payload; try discriminate He; auto.
Qed.

(** X1. Whatever the outcome, a run of a city handler issues exactly one
    upstream request when the credential is configured and none when it is
    not: the request is never repeated.  The request is the GET of the
    F-C0032-001 dataset with the key as [Authorization] and the value of
    [CITY_MAP[cityKey]] as [locationName]. *)
Theorem X1_single_request key axios cityKey w :
  requests (getCityWeather key axios cityKey w).2
  = requests w
    ++ (if configured key
        then [mkRequest "https://opendata.cwa.gov.tw/api/v1/rest/datastore/F-C0032-001"
                (default "" key) (CITY_MAP_get cityKey)]
        else []).
Proof.
  rewrite getCityWeather_requests.
  apply (getWeatherData_traces key axios (CITY_MAP_get cityKey) w).
Qed.

(** X2. A run of a city handler sends no response exactly when
    [getWeatherData] failed with an error that carries an upstream response
    whose body is [null] or [undefined]; the handler then ends with an
    exception.  In every other case the handler completes normally and has
    sent exactly one response.  No run sends two. *)
Theorem X2_single_response key axios cityKey w :
  let run := getCityWeather key axios cityKey w in
  let escaped :=
    ∃ error response,
      (getWeatherData key axios (CITY_MAP_get cityKey) w).1 = Throw error
      ∧ err_response error = Some response
      ∧ unreadable (data response) in
  (escaped → (∃ e, run.1 = Throw e) ∧ sent run.2 = sent w)
  ∧ (¬ escaped → run.1 = Return () ∧ ∃ r, sent run.2 = sent w ++ [r]).
Proof.
  cbn zeta.
  pose proof (getWeatherData_traces key axios (CITY_MAP_get cityKey) w) as (Hsent & _ & _).
  rewrite getCityWeather_unfold.
  destruct (getWeatherData key axios (CITY_MAP_get cityKey) w)
    as [[weatherData|error] w']; cbn [fst snd] in *.
  - split.
    + intros (e & r & He & _). discriminate He.
    + intros _. split; [reflexivity|]. eexists. cbn. by rewrite Hsent.
  - destruct (err_response error) as [response|] eqn:Hr.
    + destruct (read_message (data response)) as [message|e] eqn:Hm.
      * rewrite (on_error_response _ _ _ _ _ Hr Hm). split.
        -- intros (e & r & [= <-] & Hr' & Hd). rewrite Hr in Hr'. injection Hr' as <-.
           apply read_message_unreadable in Hd as [e' He']. congruence.
        -- intros _. split; [reflexivity|]. eexists. cbn. by rewrite Hsent.
      * rewrite (on_error_unreadable _ _ _ _ _ Hr Hm). split.
        -- intros _. split; [by eexists|exact Hsent].
        -- intros Hne. exfalso. apply Hne. exists error, response.
           repeat split; [exact Hr|]. apply read_message_unreadable. by eexists.
    + rewrite (on_error_plain _ _ _ Hr). split.
      * intros (e & r & [= <-] & Hr' & _). congruence.
      * intros _. split; [reflexivity|]. eexists. cbn. by rewrite Hsent.
Qed.

(** X2 on an unreachable upstream (one response) and on a [null] body
    (none). *)
Lemma X2_single_response_witness :
  ((getCityWeather (Some "key") (λ _, Rejected Sample.refused) "taipei" world0).1
     = Return ()
   ∧ ∃ r, sent (getCityWeather (Some "key") (λ _, Rejected Sample.refused)
                  "taipei" world0).2 = sent world0 ++ [r])
  ∧ ((∃ e, (getCityWeather (Some "key") (λ _, Rejected Sample.null_body)
              "taipei" world0).1 = Throw e)
     ∧ sent (getCityWeather (Some "key") (λ _, Rejected Sample.null_body)
               "taipei" world0).2 = sent world0).
Proof.
  split.
  - apply (proj2 (X2_single_response (Some "key") (λ _, Rejected Sample.refused)
                    "taipei" world0)).
    intros (error & response & He & Hr & _). cbn in He. injection He as <-.
    discriminate Hr.
  - apply (proj1 (X2_single_response (Some "key") (λ _, Rejected Sample.null_body)
                    "taipei" world0)).
    eexists _, _. split; [reflexivity|]. split; [reflexivity|]. by left.
Defined.

(** X3. When the credential is configured, the upstream answers and the
    normaliser returns a forecast, the handler completes normally, sends
    exactly one response, status 200 with [success: true] and the forecast as
    [data], and writes nothing to the error log. *)
Theorem X3_success key axios cityKey response weatherData w :
  configured key = true →
  (∀ k, key = Some k →
        axios (forecast_request k (CITY_MAP_get cityKey)) = Resolved response) →
  normalize (CITY_MAP_get cityKey) response = Return weatherData →
  (getCityWeather key axios cityKey w).1 = Return ()
  ∧ sent (getCityWeather key axios cityKey w).2
    = sent w ++ [mkHttp 200 (SuccessEnvelope true weatherData)]
  ∧ console (getCityWeather key axios cityKey w).2 = console w.
Proof.
  intros Hk Hax Hn.
  destruct (getWeatherData_configured key axios (CITY_MAP_get cityKey) w Hk)
    as (k & Hkey & Hrun).
  rewrite (Hax k Hkey), Hn in Hrun.
  rewrite getCityWeather_unfold, Hrun. done.
Qed.

(** X3 on the sample payload. *)
Lemma X3_success_witness :
  ∃ weatherData,
    length (forecasts weatherData) = 2
    ∧ sent (getCityWeather (Some "key") (λ _, Resolved Sample.taipei) "taipei"
              world0).2
      = [mkHttp 200 (SuccessEnvelope true weatherData)]
    ∧ console (getCityWeather (Some "key") (λ _, Resolved Sample.taipei) "taipei"
                 world0).2 = [].
Proof.
  eexists. split; [|
    exact (proj2 (X3_success (Some "key") (λ _, Resolved Sample.taipei) "taipei"
                    Sample.taipei _ world0 eq_refl (λ _ _, eq_refl) eq_refl))].
  reflexivity.
Defined.

(** X4. When the credential is configured and axios rejects with an error
    that has no [response] (the upstream was not reached), the handler sends
    exactly one response: status 500, [error] the server-error tag, no
    [details], and [message] the message of the error, or the generic
    try-again text when that message is empty. *)
Theorem X4_unreachable key axios cityKey error w :
  configured key = true →
  (∀ k, key = Some k →
        axios (forecast_request k (CITY_MAP_get cityKey)) = Rejected error) →
  err_response error = None →
  sent (getCityWeather key axios cityKey w).2
  = sent w ++ [mkHttp 500
                 (ErrorEnvelope "伺服器錯誤"
                    (JStr (if decide (err_message error = "")
                           then "無法取得天氣資料,請稍後再試"
                           else err_message error))
                    None)].
Proof.
  intros Hk Hax Hr.
  destruct (getWeatherData_configured key axios (CITY_MAP_get cityKey) w Hk)
    as (k & Hkey & Hrun).
  rewrite (Hax k Hkey) in Hrun.
  rewrite getCityWeather_unfold, Hrun, (on_error_plain _ _ _ Hr). cbn.
  unfold str_or. destruct (String.eqb_spec (err_message error) "");
    case_decide; done.
Qed.

(** X4 on a refused connection and on an error with an empty message. *)
Lemma X4_unreachable_witness :
  sent (getCityWeather (Some "key") (λ _, Rejected Sample.refused) "taipei" world0).2
    = [mkHttp 500
         (ErrorEnvelope "伺服器錯誤" (JStr "connect ECONNREFUSED 127.0.0.1:443") None)]
  ∧ sent (getCityWeather (Some "key") (λ _, Rejected Sample.silent) "taipei" world0).2
    = [mkHttp 500
         (ErrorEnvelope "伺服器錯誤" (JStr "無法取得天氣資料,請稍後再試") None)].
Proof.
  split.
  - exact (X4_unreachable (Some "key") (λ _, Rejected Sample.refused) "taipei"
             Sample.refused world0 eq_refl (λ _ _, eq_refl) eq_refl).
  - exact (X4_unreachable (Some "key") (λ _, Rejected Sample.silent) "taipei"
             Sample.silent world0 eq_refl (λ _ _, eq_refl) eq_refl).
Defined.

(** X5. When the credential is configured and axios rejects with an error
    that carries an upstream response whose body is neither [null] nor
    [undefined], the handler sends exactly one response, for every status
    code: the status is the upstream's, [details] is the upstream body as
    received, and [message] is the [message] property of that body when the
    body is an object and the property is truthy, the generic text
    otherwise (no such property, a falsy one, or a body that is not an
    object). *)
Theorem X5_pass_through key axios cityKey error code payload w :
  configured key = true →
  (∀ k, key = Some k →
        axios (forecast_request k (CITY_MAP_get cityKey)) = Rejected error) →
  err_response error = Some (mkResponse code payload) →
  ¬ unreadable payload →
  sent (getCityWeather key axios cityKey w).2
  = sent w ++ [mkHttp code
                 (ErrorEnvelope "CWA API 錯誤"
                    match payload with
                    | JObj props =>
                        if truthy (own_property "message" props)
                        then own_property "message" props
                        else JStr "無法取得天氣資料"
                    | _ => JStr "無法取得天氣資料"
                    end
                    (Some payload))].
Proof.
  intros Hk Hax Hr Hread.
  destruct (getWeatherData_configured key axios (CITY_MAP_get cityKey) w Hk)
    as (k & Hkey & Hrun).
  rewrite (Hax k Hkey) in Hrun.
  rewrite getCityWeather_unfold, Hrun.
  destruct (read_message payload) as [message|e] eqn:Hm.
  - rewrite (on_error_response _ _ _ message _ Hr Hm). cbn.
    destruct payload; try discriminate Hm; injection Hm as <-; reflexivity.
  - exfalso. apply Hread, read_message_unreadable. by eexists.
Qed.

(** X5 on a 503 answer whose [message] is the empty string. *)
Lemma X5_pass_through_witness :
  sent (getCityWeather (Some "key") (λ _, Rejected Sample.blank_message) "taipei"
          world0).2
  = [mkHttp 503
       (ErrorEnvelope "CWA API 錯誤" (JStr "無法取得天氣資料")
          (Some (JObj [("message", JStr "")])))].
Proof.
  refine (X5_pass_through (Some "key") (λ _, Rejected Sample.blank_message) "taipei"
            Sample.blank_message 503%Z (JObj [("message", JStr "")]) world0
            eq_refl (λ _ _, eq_refl) eq_refl _).
  intros [H|H]; discriminate H.
Defined.

(** X6. A run of a city handler writes to the error log exactly when
    [getWeatherData] failed, and then exactly one line: the label built from
    the string form of [CITY_MAP[cityKey]], with the message of the error.  A
    successful run logs nothing. *)
Theorem X6_error_log key axios cityKey w :
  console (getCityWeather key axios cityKey w).2
  = console w
    ++ match (getWeatherData key axios (CITY_MAP_get cityKey) w).1 with
       | Return _ => []
       | Throw error =>
           [("取得" +:+ ToString (CITY_MAP_get cityKey) +:+ "天氣資料失敗:",
             err_message error)]
       end.
Proof.
  pose proof (getWeatherData_traces key axios (CITY_MAP_get cityKey) w) as (_ & Hc & _).
  rewrite getCityWeather_unfold.
  destruct (getWeatherData key axios (CITY_MAP_get cityKey) w)
    as [[weatherData|error] w']; cbn [fst snd] in *.
  - cbn. by rewrite Hc, app_nil_r.
  - destruct (err_response error) as [response|] eqn:Hr.
    + destruct (read_message (data response)) as [message|e] eqn:Hm.
      * rewrite (on_error_response _ _ _ _ _ Hr Hm). cbn. by rewrite Hc.
      * rewrite (on_error_unreadable _ _ _ _ _ Hr Hm). cbn. by rewrite Hc.
    + rewrite (on_error_plain _ _ _ Hr). cbn. by rewrite Hc.
Qed.

(** What the [catch] block sends and logs depends on the world only through
    what was sent and logged before. *)
Lemma on_error_traces cityKey error w w' :
  sent w = sent w' → console w = console w' →
  (on_error cityKey error w).1 = (on_error cityKey error w').1
  ∧ sent (on_error cityKey error w).2 = sent (on_error cityKey error w').2
  ∧ console (on_error cityKey error w).2 = console (on_error cityKey error w').2.
Proof.
  intros Hs Hc.
  destruct (err_response error) as [response|] eqn:Hr.
  - destruct (read_message (data response)) as [message|e] eqn:Hm.
    + rewrite !(on_error_response _ _ _ _ _ Hr Hm). cbn. by rewrite Hs, Hc.
    + rewrite !(on_error_unreadable _ _ _ _ _ Hr Hm). cbn. by rewrite Hs, Hc.
  - rewrite !(on_error_plain _ _ _ Hr). cbn. by rewrite Hs, Hc.
Qed.

(** X7. The credential reaches the client and the log only through the
    upstream: two runs of a handler with two configured keys, for which the
    upstream gives the same answer, end the same way, send the same responses
    and write the same log lines. *)
Theorem X7_key_confined key key' axios axios' cityKey w :
  configured key = true →
  configured key' = true →
  (∀ k k', key = Some k → key' = Some k' →
           axios (forecast_request k (CITY_MAP_get cityKey))
           = axios' (forecast_request k' (CITY_MAP_get cityKey))) →
  (getCityWeather key axios cityKey w).1 = (getCityWeather key' axios' cityKey w).1
  ∧ sent (getCityWeather key axios cityKey w).2
    = sent (getCityWeather key' axios' cityKey w).2
  ∧ console (getCityWeather key axios cityKey w).2
    = console (getCityWeather key' axios' cityKey w).2.
Proof.
  intros Hk Hk' Hax.
  destruct (getWeatherData_configured key axios (CITY_MAP_get cityKey) w Hk)
    as (k & Hkey & Hrun).
  destruct (getWeatherData_configured key' axios' (CITY_MAP_get cityKey) w Hk')
    as (k' & Hkey' & Hrun').
  rewrite !getCityWeather_unfold, Hrun, Hrun', (Hax k k' Hkey Hkey').
  destruct (axios' _) as [response|error].
  - destruct (normalize (CITY_MAP_get cityKey) response); [done|].
    by apply on_error_traces.
  - by apply on_error_traces.
Qed.

(** X7 on two keys and an upstream that answers both alike. *)
Lemma X7_key_confined_witness :
  sent (getCityWeather (Some "key") (λ _, Resolved Sample.taipei) "taipei" world0).2
  = sent (getCityWeather (Some "other") (λ _, Resolved Sample.taipei) "taipei"
            world0).2.
Proof.
  exact (proj1 (proj2 (X7_key_confined (Some "key") (Some "other")
                         (λ _, Resolved Sample.taipei) (λ _, Resolved Sample.taipei)
                         "taipei" world0 eq_refl eq_refl (λ _ _ _ _, eq_refl)))).
Defined.

(** * Further properties of the normaliser *)

Lemma for_loop_Return_inv body indices forecasts result :
  for_loop body indices forecasts = Return result →
  ∃ pushed, result = forecasts ++ pushed
            ∧ Forall2 (λ i forecast, body i = Return forecast) indices pushed.
Proof.
  revert forecasts. induction indices as [|i indices IH]; intros forecasts; cbn.
  - intros [= <-]. exists []. split; [by rewrite app_nil_r|constructor].
  - destruct (body i) as [forecast|e] eqn:Hi; [|discriminate].
    intros Hrun. apply IH in Hrun as (pushed & -> & Hall).
    exists (forecast :: pushed). split; [by rewrite <- app_assoc|by constructor].
Qed.

Lemma forEach_Return_inv i es forecast forecast' element :
  forEach i es forecast = Return forecast' →
  element ∈ es → i < length (Upstream.time element).
Proof.
  intros Hrun Hin.
  destruct (decide (i < length (Upstream.time element))) as [|Hge]; [done|].
  rewrite (forEach_Throw i es forecast element) in Hrun; [discriminate|done|lia].
Qed.

(** A returned forecast document, taken apart. *)
Lemma normalize_Return_inv cityName response weatherData :
  normalize cityName response = Return weatherData →
  ∃ locationData first,
    Upstream.location (Upstream.records (data response)) !! 0 = Some locationData
    ∧ elements_of response !! 0 = Some first
    ∧ city weatherData = Upstream.locationName locationData
    ∧ updateTime weatherData
      = Upstream.datasetDescription (Upstream.records (data response))
    ∧ Forall2
        (λ i forecast,
           forecast_at first (elements_of response) i = Return forecast)
        (seq 0 (length (Upstream.time first))) (forecasts weatherData).
Proof.
  unfold normalize, elements_of.
  destruct (Upstream.location (Upstream.records (data response)) !! 0)
    as [locationData|]; [|discriminate].
  destruct (Upstream.weatherElement locationData !! 0) as [first|]; [|discriminate].
  cbn. destruct (for_loop _ _ _) as [pushed|e] eqn:Hloop; [|discriminate].
  intros [= <-]. exists locationData, first.
  apply for_loop_Return_inv in Hloop as (pushed' & -> & Hall). done.
Qed.

(** X9. A returned document takes [city] from the first location record (not
    from the requested locale) and [updateTime] from the dataset description,
    and its forecasts have, in order, exactly the start and end times of the
    first weather element's entries: one forecast per entry, whatever the
    other elements hold. *)
Theorem X9_document_shape cityName response weatherData :
  normalize cityName response = Return weatherData →
  (∃ locationData,
     Upstream.location (Upstream.records (data response)) !! 0 = Some locationData
     ∧ city weatherData = Upstream.locationName locationData)
  ∧ updateTime weatherData
    = Upstream.datasetDescription (Upstream.records (data response))
  ∧ interval <$> forecasts weatherData
    = (λ entry, (Upstream.startTime entry, Upstream.endTime entry))
        <$> first_times response.
Proof.
  intros Hrun.
  destruct (normalize_Return_inv _ _ _ Hrun)
    as (locationData & first & Hloc & Hfirst & Hcity & Hupdate & Hall).
  split; [by exists locationData|]. split; [done|].
  unfold first_times. rewrite Hfirst.
  pose proof (Forall2_length _ _ _ Hall) as Hlen. rewrite length_seq in Hlen.
  apply list_eq. intros i. rewrite !list_lookup_fmap.
  destruct (decide (i < length (Upstream.time first))) as [Hi|Hi].
  - destruct (Forall2_lookup_l _ _ _ i i Hall) as (forecast & -> & Hbody).
    { by apply lookup_seq_lt. }
    unfold forecast_at in Hbody.
    destruct (Upstream.time first !! i) as [entry|]; [|discriminate].
    apply forEach_times in Hbody as [Hs He]. cbn. unfold interval.
    by rewrite Hs, He.
  - rewrite !lookup_ge_None_2 by lia. done.
Qed.

(** X9 on the sample payload. *)
Lemma X9_document_shape_witness :
  ∃ weatherData,
    normalize (Locale "臺北市") Sample.taipei = Return weatherData
    ∧ interval <$> forecasts weatherData
      = [(Sample.t0, Sample.t1); (Sample.t1, Sample.t2)].
Proof.
  eexists. split; [reflexivity|].
  exact (proj2 (proj2 (X9_document_shape (Locale "臺北市") Sample.taipei _ eq_refl))).
Defined.

(** The forecasts of a returned document are what [forEach] computed from the
    blank forecast of their interval. *)
Lemma normalize_forecast cityName response weatherData i forecast :
  normalize cityName response = Return weatherData →
  forecasts weatherData !! i = Some forecast →
  ∃ blank, (∀ code, code ∈ element_codes → field code blank = "")
           ∧ forEach i (elements_of response) blank = Return forecast.
Proof.
  intros Hrun Hf.
  destruct (normalize_Return_inv _ _ _ Hrun) as (_ & first & _ & _ & _ & _ & Hall).
  destruct (Forall2_lookup_r _ _ _ i forecast Hall Hf) as (j & Hj & Hbody).
  apply lookup_seq in Hj as [-> _]. cbn in Hbody.
  unfold forecast_at in Hbody.
  destruct (Upstream.time first !! i) as [entry|]; [|discriminate].
  eexists. split; [|exact Hbody].
  intros code Hc. unfold element_codes in Hc.
  repeat (apply elem_of_cons in Hc as [->|Hc]); [..|by apply elem_of_nil in Hc];
    reflexivity.
Qed.

(** X10. A recognised code that no weather element of the record carries is
    not an error: in every forecast of the returned document the field of that
    code is the empty string. *)
Theorem X10_absent_code cityName response weatherData code forecast :
  normalize cityName response = Return weatherData →
  forecast ∈ forecasts weatherData →
  (∀ element, element ∈ elements_of response →
              Upstream.elementName element ≠ code) →
  (code = "Wx" → weather forecast = "")
  ∧ (code = "PoP" → rain forecast = "")
  ∧ (code = "MinT" → minTemp forecast = "")
  ∧ (code = "MaxT" → maxTemp forecast = "")
  ∧ (code = "CI" → comfort forecast = "")
  ∧ (code = "WS" → windSpeed forecast = "").
Proof.
  intros Hrun Hin Habsent.
  apply list_elem_of_lookup in Hin as [i Hi].
  destruct (normalize_forecast _ _ _ _ _ Hrun Hi) as (blank & Hblank & Hbody).
  assert (Hfield : code ∈ element_codes → field code forecast = "").
  { intros Hc. apply (forEach_field (λ s, s = "") code i _ _ _ Hc Hbody).
    - intros element entry He Hname. by destruct (Habsent element He).
    - left. by apply Hblank. }
  repeat split; intros ->; apply Hfield; unfold element_codes; repeat constructor.
Qed.

(** X10 on a record with the two elements Wx and PoP: no comfort index. *)
Lemma X10_absent_code_witness :
  ∃ weatherData,
    normalize (Locale "臺北市") Sample.long_pop = Return weatherData
    ∧ ∀ forecast, forecast ∈ forecasts weatherData → comfort forecast = "".
Proof.
  eexists. split; [reflexivity|]. intros forecast Hin.
  refine (proj1 (proj2 (proj2 (proj2 (proj2
            (X10_absent_code (Locale "臺北市") Sample.long_pop _ "CI"
               forecast eq_refl Hin _))))) eq_refl).
  apply (proj1 (Forall_forall (λ element, Upstream.elementName element ≠ "CI") _)).
  compute_done.
Defined.

Lemma forEach_last code i before element after forecast forecast' entry :
  code ∈ element_codes →
  Upstream.elementName element = code →
  (∀ later, later ∈ after → Upstream.elementName later ≠ code) →
  Upstream.time element !! i = Some entry →
  forEach i (before ++ element :: after) forecast = Return forecast' →
  field code forecast' = rendered code (Upstream.parameter entry).
Proof.
  intros Hc Hname Hafter Hentry. revert forecast.
  induction before as [|x before IH]; intros forecast; cbn.
  - rewrite Hentry. intros Hrun.
    apply (forEach_field (λ s, s = rendered code (Upstream.parameter entry))
             code i _ _ _ Hc Hrun).
    + intros later entry' Hin Hl. by destruct (Hafter later Hin).
    + left. rewrite field_assign by exact Hc. by rewrite decide_True.
  - destruct (Upstream.time x !! i); [apply IH|discriminate].
Qed.

(** X11. In a returned document the field of a recognised code holds the
    value of the last weather element that carries the code, at the same
    index: the upstream text as it is for Wx, CI and WS, followed by [%] for
    PoP and by the degree sign and [C] for MinT and MaxT.  Earlier elements
    with the same code are overwritten. *)
Theorem X11_last_element_wins cityName response weatherData
    before element after i entry forecast :
  normalize cityName response = Return weatherData →
  elements_of response = before ++ element :: after →
  (∀ later, later ∈ after →
            Upstream.elementName later ≠ Upstream.elementName element) →
  Upstream.time element !! i = Some entry →
  forecasts weatherData !! i = Some forecast →
  let code := Upstream.elementName element in
  let value := Upstream.parameterName (Upstream.parameter entry) in
  (code = "Wx" → weather forecast = value)
  ∧ (code = "PoP" → rain forecast = value +:+ "%")
  ∧ (code = "MinT" → minTemp forecast = value +:+ "°C")
  ∧ (code = "MaxT" → maxTemp forecast = value +:+ "°C")
  ∧ (code = "CI" → comfort forecast = value)
  ∧ (code = "WS" → windSpeed forecast = value).
Proof.
  intros Hrun Hes Hafter Hentry Hf. cbn zeta.
  destruct (normalize_forecast _ _ _ _ _ Hrun Hf) as (blank & _ & Hbody).
  rewrite Hes in Hbody.
  assert (Hfield : Upstream.elementName element ∈ element_codes →
            field (Upstream.elementName element) forecast
            = rendered (Upstream.elementName element) (Upstream.parameter entry)).
  { intros Hc. by apply (forEach_last _ i before element after blank). }
  repeat split; intros Hcode; rewrite Hcode in Hfield; apply Hfield;
    unfold element_codes; repeat constructor.
Qed.

(** X11 on two Wx elements: the second one gives the weather text. *)
Lemma X11_last_element_wins_witness :
  ∃ weatherData forecast,
    normalize (Locale "臺北市") Sample.twice = Return weatherData
    ∧ forecasts weatherData !! 0 = Some forecast
    ∧ weather forecast = "雨".
Proof.
  eexists _, _. split; [reflexivity|]. split; [reflexivity|].
  refine (proj1 (X11_last_element_wins (Locale "臺北市") Sample.twice _
                   [Upstream.mkElement "Wx" (Sample.series "晴" "晴")]
                   (Upstream.mkElement "Wx" (Sample.series "雨" "雨")) []
                   0 (Sample.entry Sample.t0 Sample.t1 "雨") _
                   eq_refl eq_refl _ eq_refl eq_refl) eq_refl).
  intros later Hin. by apply elem_of_nil in Hin.
Defined.

Lemma forEach_values i es es' forecast :
  values <$> es = values <$> es' →
  forEach i es forecast = forEach i es' forecast.
Proof.
  revert es' forecast. induction es as [|x es IH]; intros [|x' es'] forecast Hv;
    try discriminate Hv; [reflexivity|].
  rewrite !fmap_cons in Hv. injection Hv as Hname Hparams Hrest.
  apply (f_equal (λ l, l !! i)) in Hparams. rewrite !list_lookup_fmap in Hparams.
  cbn. destruct (Upstream.time x !! i) as [entry|], (Upstream.time x' !! i) as [entry'|];
    cbv [fmap option_fmap option_map] in Hparams; try discriminate Hparams;
    [|reflexivity].
  injection Hparams as Hp. rewrite Hname, Hp. by apply IH.
Qed.

(** X12. Of the weather elements after the first, the normaliser reads only
    the code and the [parameter] of each entry: their start and end times are
    never compared with those of the first element, so replacing them leaves
    the result, value or failure, unchanged. *)
Theorem X12_boundaries_unchecked cityName response first rest rest' :
  elements_of response = first :: rest →
  values <$> rest = values <$> rest' →
  normalize cityName (with_elements (first :: rest') response)
  = normalize cityName response.
Proof.
  destruct response as [code [[description [|[name es] others]]]];
    [discriminate|].
  unfold with_elements, elements_of. cbn [data Upstream.records Upstream.location
    Upstream.datasetDescription Upstream.locationName Upstream.weatherElement
    status lookup list_lookup].
  intros -> Hv. rewrite !normalize_cons. cbn [lookup list_lookup].
  f_equal. apply for_loop_ext. intros i _. unfold forecast_at.
  destruct (Upstream.time first !! i); [|reflexivity].
  apply forEach_values. rewrite !fmap_cons. by rewrite Hv.
Qed.

(** X12 on the sample payload with the times of five elements replaced. *)
Lemma X12_boundaries_unchecked_witness :
  normalize (Locale "臺北市") (with_elements Sample.shifted Sample.taipei)
  = normalize (Locale "臺北市") Sample.taipei.
Proof.
  exact (X12_boundaries_unchecked (Locale "臺北市") Sample.taipei _ _ _
           eq_refl eq_refl).
Defined.

(** * The route table and the index document *)

Lemma CITY_MAP_keys cityKey name :
  CITY_MAP !! cityKey = Some name → cityKey ∈ city_keys.
Proof.
  intros H. destruct (decide (cityKey ∈ city_keys)) as [|Hout]; [done|].
  rewrite (CITY_MAP_other _ Hout) in H. discriminate H.
Qed.

(** X13. Every weather route is bound to a key of the city table: its path
    is [/api/weather/] followed by the key, the lookup of its handler yields
    a non-empty locale name (never [undefined]), and with a configured
    credential the handler queries the upstream for that locale.  Conversely
    every key of the city table has its route. *)
Theorem X13_routes_resolve :
  (∀ path cityKey,
     (path, cityKey) ∈ weather_routes →
     path = "/api/weather/" +:+ cityKey
     ∧ ∃ name,
         CITY_MAP !! cityKey = Some name ∧ name ≠ ""
         ∧ ∀ key axios w,
             configured key = true →
             ∃ k, key = Some k
                  ∧ requests (getCityWeather key axios cityKey w).2
                    = requests w ++ [forecast_request k (Locale name)])
  ∧ (∀ cityKey name,
       CITY_MAP !! cityKey = Some name →
       ("/api/weather/" +:+ cityKey, cityKey) ∈ weather_routes).
Proof.
  split.
  - intros path cityKey Hin. unfold weather_routes in Hin.
    repeat (apply elem_of_cons in Hin as [[= -> ->]|Hin]);
      [..|by apply elem_of_nil in Hin];
      (split; [reflexivity|]); eexists; (split; [reflexivity|]);
      (split; [discriminate|]); intros key axios w Hk;
      destruct key as [k|]; [|discriminate Hk| |discriminate Hk| |discriminate Hk
                              | |discriminate Hk| |discriminate Hk| |discriminate Hk];
      exists k; (split; [reflexivity|]);
      rewrite getCityWeather_requests;
      rewrite (proj2 (proj2 (getWeatherData_traces _ _ _ _))), Hk; reflexivity.
  - intros cityKey name Hname. apply CITY_MAP_keys in Hname.
    unfold city_keys in Hname.
    repeat (apply elem_of_cons in Hname as [->|Hname]);
      [..|by apply elem_of_nil in Hname]; unfold weather_routes; cbn;
      repeat constructor.
Qed.

(** X13 on the route of Tainan and on the key of Taoyuan. *)
Lemma X13_routes_resolve_witness :
  ("/api/weather/tainan" = "/api/weather/" +:+ "tainan"
   ∧ ∃ name, CITY_MAP !! "tainan" = Some name ∧ name ≠ "")
  ∧ ("/api/weather/" +:+ "taoyuan", "taoyuan") ∈ weather_routes.
Proof.
  destruct X13_routes_resolve as [Hroute Hkey]. split.
  - destruct (Hroute "/api/weather/tainan" "tainan") as (Hpath & name & Hname & Hne & _).
    { unfold weather_routes. find_member. }
    split; [exact Hpath|]. by exists name.
  - apply (Hkey "taoyuan" "桃園市"). reflexivity.
Defined.

(** X14. The document served at [/] agrees with the routes and the city
    table: every endpoint it lists, [health] apart, is the path of a weather
    route, and the locale it gives under [cities] for the same name is the
    one the handler of that route resolves; every weather route is listed.
    The names it uses are not always the keys of the city table: it says
    [newTaipei] where the table and the route have [newtaipei]. *)
Theorem X14_index_document :
  (∀ name path,
     (name, path) ∈ root_endpoints → name ≠ "health" →
     ∃ cityKey locale,
       (path, cityKey) ∈ weather_routes
       ∧ CITY_MAP !! cityKey = Some locale
       ∧ (name, locale) ∈ root_cities)
  ∧ (∀ path cityKey,
       (path, cityKey) ∈ weather_routes →
       ∃ name, (name, path) ∈ root_endpoints ∧ name ≠ "health")
  ∧ (("newTaipei", "新北市") ∈ root_cities
     ∧ CITY_MAP !! "newTaipei" = None
     ∧ CITY_MAP !! "newtaipei" = Some "新北市").
Proof.
  split; [|split].
  - intros name path Hin Hne. unfold root_endpoints in Hin.
    repeat (apply elem_of_cons in Hin as [[= -> ->]|Hin]);
      [..|by apply elem_of_nil in Hin]; try (by destruct Hne);
      eexists _, _; (split; [unfold weather_routes; find_member|]);
      (split; [reflexivity|]); unfold root_cities; find_member.
  - intros path cityKey Hin. unfold weather_routes in Hin.
    repeat (apply elem_of_cons in Hin as [[= -> ->]|Hin]);
      [..|by apply elem_of_nil in Hin];
      eexists; (split; [unfold root_endpoints; find_member|discriminate]).
  - split; [unfold root_cities; find_member|]. split; reflexivity.
Qed.

(** X14 on the endpoint listed as [newTaipei]. *)
Lemma X14_index_document_witness :
  ∃ cityKey locale,
    ("/api/weather/newtaipei", cityKey) ∈ weather_routes
    ∧ CITY_MAP !! cityKey = Some locale
    ∧ ("newTaipei", locale) ∈ root_cities.
Proof.
  apply (proj1 X14_index_document "newTaipei" "/api/weather/newtaipei").
  - unfold root_endpoints. find_member.
  - discriminate.
Defined.

(** * The normaliser on entries without a parameter *)

(** On a payload in which every entry has its parameter the loop over the
    payload with optional parameters is the loop of [normalize]. *)
Lemma Loose_forEach_typed i es forecast :
  Loose.forEach i (Loose.of_element <$> es) forecast = forEach i es forecast.
Proof.
  revert forecast. induction es as [|x es IH]; intros forecast; [reflexivity|].
  cbn. rewrite list_lookup_fmap.
  destruct (Upstream.time x !! i) as [entry|]; [apply IH|reflexivity].
Qed.

Lemma Loose_normalize_typed cityName response :
  Loose.normalize cityName (Loose.of_response response) = normalize cityName response.
Proof.
  destruct response as [code [[description [|[name es] others]]]]; [reflexivity|].
  rewrite normalize_cons.
  destruct es as [|first rest]; [reflexivity|].
  change (Loose.normalize cityName _)
    with (forecasts ← for_loop
                        (Loose.forecast_at (Loose.of_element first)
                           (Loose.of_element <$> first :: rest))
                        (seq 0 (length (Loose.of_entry <$> Upstream.time first))) [];
          Return (mkWeatherData name description forecasts)).
  cbn [lookup list_lookup]. rewrite length_fmap. f_equal.
  apply for_loop_ext. intros i _. unfold Loose.forecast_at, forecast_at.
  change (Loose.time (Loose.of_element first))
    with (Loose.of_entry <$> Upstream.time first).
  rewrite list_lookup_fmap.
  destruct (Upstream.time first !! i) as [entry|]; [|reflexivity].
  apply (Loose_forEach_typed i (first :: rest)).
Qed.

(** The callback of [forEach] runs through at index [i] exactly when every
    element has an entry [i] and, if its code is recognised, that entry has a
    parameter. *)
Lemma Loose_forEach_Return i es forecast :
  (∃ forecast', Loose.forEach i es forecast = Return forecast')
  ↔ ∀ element, element ∈ es →
      ∃ entry, Loose.time element !! i = Some entry
               ∧ (Loose.elementName element ∈ element_codes →
                  is_Some (Loose.parameter entry)).
Proof.
  revert forecast. induction es as [|x es IH]; intros forecast.
  - split; [|by eexists]. intros _ element Hin. by apply elem_of_nil in Hin.
  - cbn. destruct (Loose.time x !! i) as [entry|] eqn:Hx.
    + assert (Hrest : ∀ P : Loose.WeatherElement → Prop,
                P x → ((∀ element, element ∈ es → P element)
                       ↔ ∀ element, element ∈ x :: es → P element)).
      { intros P Hp. split.
        - intros H element Hin. apply elem_of_cons in Hin as [->|Hin]; auto.
        - intros H element Hin. apply H. by right. }
      destruct (Loose.parameter entry) as [value|] eqn:Hv.
      * rewrite IH. apply Hrest. exists entry. rewrite Hv. by split; [|eexists].
      * case_bool_decide as Hrec.
        -- split; [intros [f Hf]; discriminate Hf|].
           intros H. destruct (H x) as (entry' & He & Hp); [left|].
           rewrite Hx in He. injection He as <-.
           destruct (Hp Hrec) as [value Hvalue]. congruence.
        -- rewrite IH. apply Hrest. exists entry. by split.
    + split; [intros [f Hf]; discriminate Hf|].
      intros H. destruct (H x) as (entry & He & _); [left|]. congruence.
Qed.

(** X8. For an upstream body in which a time entry may lack its [parameter],
    the normaliser returns a forecast document exactly when the response has
    a first location record, that record has a first weather element, every
    weather element of the record has at least as many time entries as the
    first one, and every entry below that count of an element with a
    recognised code has a parameter (an element with any other code needs
    none).  In particular a first element with an empty time series is
    normalised, to a document without forecasts. *)
Theorem X8_success_condition cityName response :
  (∃ weatherData, Loose.normalize cityName response = Return weatherData)
  ↔ ∃ locationData first,
      Loose.location (Loose.records (data response)) !! 0 = Some locationData
      ∧ Loose.weatherElement locationData !! 0 = Some first
      ∧ ∀ element, element ∈ Loose.weatherElement locationData →
          length (Loose.time first) ≤ length (Loose.time element)
          ∧ (Loose.elementName element ∈ element_codes →
             ∀ i entry, i < length (Loose.time first) →
                        Loose.time element !! i = Some entry →
                        is_Some (Loose.parameter entry)).
Proof.
  unfold Loose.normalize. split.
  - intros [weatherData Hrun].
    destruct (Loose.location (Loose.records (data response)) !! 0)
      as [locationData|]; [|discriminate].
    destruct (Loose.weatherElement locationData !! 0) as [first|] eqn:Hfirst;
      [|discriminate].
    cbn in Hrun. destruct (for_loop _ _ _) as [pushed|e] eqn:Hloop; [|discriminate].
    apply for_loop_Return_inv in Hloop as (pushed' & _ & Hall).
    exists locationData, first. split; [done|]. split; [done|].
    intros element Hin.
    assert (Hidx : ∀ i, i < length (Loose.time first) →
              ∃ entry, Loose.time element !! i = Some entry
                       ∧ (Loose.elementName element ∈ element_codes →
                          is_Some (Loose.parameter entry))).
    { intros i Hi.
      destruct (Forall2_lookup_l _ _ _ i i Hall) as (forecast & _ & Hbody).
      { by apply lookup_seq_lt. }
      unfold Loose.forecast_at in Hbody.
      destruct (Loose.time first !! i); [|discriminate].
      eapply Loose_forEach_Return; [by eexists|exact Hin]. }
    split.
    + destruct (decide (length (Loose.time first) ≤ length (Loose.time element)))
        as [|Hshort]; [done|].
      destruct (Hidx (length (Loose.time element))) as (entry & He & _); [lia|].
      apply lookup_lt_Some in He. lia.
    + intros Hrec i entry Hi He.
      destruct (Hidx i Hi) as (entry' & He' & Hp).
      rewrite He in He'. injection He' as <-. by apply Hp.
  - intros (locationData & first & -> & Hfirst & Hcond). cbn. rewrite Hfirst.
    destruct (for_loop_Return (Loose.forecast_at first (Loose.weatherElement locationData))
                (seq 0 (length (Loose.time first))) []) as (pushed & Hloop & _).
    + intros i Hi. apply elem_of_seq in Hi as [_ Hi]. unfold Loose.forecast_at.
      destruct (lookup_lt_is_Some_2 (Loose.time first) i) as [entry ->]; [lia|].
      apply Loose_forEach_Return. intros element Hin.
      destruct (Hcond element Hin) as [Hlen Hp].
      destruct (lookup_lt_is_Some_2 (Loose.time element) i) as [entry' He]; [lia|].
      exists entry'. split; [done|]. intros Hrec. apply (Hp Hrec i); [lia|done].
    + cbn. rewrite Hloop. by eexists.
Qed.

(** X8 on a record whose element of unknown code has no parameters (a
    document is returned) and on a lone PoP element whose entry has no
    parameter (none is). *)
Lemma X8_success_condition_witness :
  (∃ weatherData, Loose.normalize (Locale "臺北市") Loose.sparse = Return weatherData)
  ∧ ¬ (∃ weatherData,
         Loose.normalize (Locale "臺北市") Loose.bare_pop = Return weatherData).
Proof.
  split.
  - apply (proj2 (X8_success_condition (Locale "臺北市") Loose.sparse)).
    eexists _, _. split; [reflexivity|]. split; [reflexivity|].
    intros element Hin. cbn in Hin.
    repeat (apply elem_of_cons in Hin as [->|Hin]); [..|by apply elem_of_nil in Hin].
    + split; [cbn; lia|]. intros _ i entry Hi He.
      destruct i as [|[|i]]; cbn in He, Hi; [| |lia]; injection He as <-; by eexists.
    + split; [cbn; lia|]. intros Hrec. exfalso. revert Hrec. cbn.
      unfold element_codes. intros Hrec.
      repeat (apply elem_of_cons in Hrec as [Hrec|Hrec]; [discriminate Hrec|]).
      by apply elem_of_nil in Hrec.
  - intros H.
    apply (proj1 (X8_success_condition (Locale "臺北市") Loose.bare_pop)) in H
      as (locationData & first & Hloc & Hfirst & Hcond).
    cbn in Hloc. injection Hloc as <-. cbn in Hfirst. injection Hfirst as <-.
    destruct (Hcond (Loose.mkElement "PoP" [Loose.mkTime Sample.t0 Sample.t1 None]))
      as [_ Hp]; [left|].
    destruct (Hp ltac:(unfold element_codes; find_member) 0
                (Loose.mkTime Sample.t0 Sample.t1 None)) as [value Hvalue];
      [cbn; lia|reflexivity|discriminate Hvalue].
Defined.
